(** * dubbo-go [common/logger]: the leveled logging facade

    A shallow embedding of [common/logger/logger.go] and of the parts of its
    collaborators (Go's [path], [go.uber.org/zap], [zapcore], [lumberjack],
    [getty]) that the facade's behaviour depends on, followed by the
    properties of the facade.

    Conventions.
    - [zapcore.Level] is Go's [int8]: a [Z] whose arithmetic wraps
      ([zapcore.wrap8]).
    - A [zap.AtomicLevel] is a pointer to a shared atomic cell: an optional
      address into the level store of the program state.  The zero value
      [AtomicLevel{}] holds the nil pointer.
    - Go functions that read or write the package state are computations in
      the monad [M]: they end normally, panic, or exit the process.
    - A [Logger] made by a client is known by its methods: what each does
      to the atomic levels and to the writers. *)

From Stdlib Require Import ZArith String Ascii List Bool Lia.
From stdpp Require Import base list strings.
Import ListNotations.

Set Warnings "-register-all".

Local Open Scope string_scope.
Local Open Scope Z_scope.
Local Open Scope list_scope.

(** ** Go's [path] package *)

Module path.

(** [for i := len(path) - 1; i >= 0 && path[i] != '/'; i--]: the loop of
    [path.Ext], where [n] is [i + 1]. *)
Fixpoint Ext_loop (p : string) (n : nat) : string :=
  match n with
  | O => ""
  | S i =>
      match String.get i p with
      | Some c =>
          if Ascii.eqb c "/" then ""
          else if Ascii.eqb c "." then String.substring i (String.length p - i) p
          else Ext_loop p i
      | None => ""
      end
  end.

Definition Ext (p : string) : string := Ext_loop p (String.length p).

End path.

(** ** Go's [unicode/utf8], [unicode] and [bytes] packages

    zap lowers the name of a level with [bytes.ToLower] before it gives up
    on it.  A Go string holds bytes; [bytes.ToLower] reads them as UTF-8. *)

Module utf8.

Definition RuneError : Z := 65533.     (* U+FFFD *)
Definition RuneSelf : Z := 128.
Definition MaxRune : Z := 1114111.     (* U+10FFFF *)
Definition surrogateMin : Z := 55296.  (* U+D800 *)
Definition surrogateMax : Z := 57343.  (* U+DFFF *)

Definition locb : Z := 128.
Definition hicb : Z := 191.
Definition maskx : Z := 63.
Definition mask2 : Z := 31.
Definition mask3 : Z := 15.
Definition mask4 : Z := 7.

Definition byteOf (c : ascii) : Z := Z.of_N (N_of_ascii c).

(** [byte(z)] *)
Definition ofByte (z : Z) : ascii := ascii_of_N (Z.to_N (z mod 256)).

(** What the table [first] says of a leading byte: ASCII, invalid, or the
    start of a sequence of [sz] bytes whose second byte lies between [lo]
    and [hi] (the table [acceptRanges]). *)
Inductive lead :=
| as_
| xx
| multi (sz : nat) (lo hi : Z).

Definition first (p0 : Z) : lead :=
  if p0 <? 128 then as_
  else if p0 <? 194 then xx
  else if p0 <? 224 then multi 2 locb hicb
  else if p0 =? 224 then multi 3 160 hicb
  else if p0 =? 237 then multi 3 locb 159
  else if p0 <? 240 then multi 3 locb hicb
  else if p0 =? 240 then multi 4 144 hicb
  else if p0 <? 244 then multi 4 locb hicb
  else if p0 =? 244 then multi 4 locb 143
  else xx.

(** [p[i]], read only where [i < len(p)]. *)
Definition at_ (p : string) (i : nat) : Z :=
  match String.get i p with
  | Some c => byteOf c
  | None => 0
  end.

(** [func DecodeRune(p []byte) (rune, int)] *)
Definition DecodeRune (p : string) : Z * nat :=
  match p with
  | EmptyString => (RuneError, 0%nat)
  | String c0 _ =>
      let p0 := byteOf c0 in
      match first p0 with
      | as_ => (p0, 1%nat)
      | xx => (RuneError, 1%nat)
      | multi sz lo hi =>
          if (String.length p <? sz)%nat then (RuneError, 1%nat)
          else
            let b1 := at_ p 1 in
            if (b1 <? lo) || (hi <? b1) then (RuneError, 1%nat)
            else if (sz <=? 2)%nat then
              (Z.lor (Z.shiftl (Z.land p0 mask2) 6) (Z.land b1 maskx), 2%nat)
            else
              let b2 := at_ p 2 in
              if (b2 <? locb) || (hicb <? b2) then (RuneError, 1%nat)
              else if (sz <=? 3)%nat then
                (Z.lor (Z.lor (Z.shiftl (Z.land p0 mask3) 12)
                          (Z.shiftl (Z.land b1 maskx) 6))
                   (Z.land b2 maskx), 3%nat)
              else
                let b3 := at_ p 3 in
                if (b3 <? locb) || (hicb <? b3) then (RuneError, 1%nat)
                else
                  (Z.lor (Z.lor (Z.lor (Z.shiftl (Z.land p0 mask4) 18)
                                   (Z.shiftl (Z.land b1 maskx) 12))
                            (Z.shiftl (Z.land b2 maskx) 6))
                     (Z.land b3 maskx), 4%nat)
      end
  end.

(** [tx | byte(r) & maskx] *)
Definition tx (r : Z) : ascii := ofByte (Z.lor 128 (Z.land r maskx)).

(** [func AppendRune(p []byte, r rune) []byte], for a rune that is not
    negative: the bytes appended. *)
Definition AppendRune (r : Z) : string :=
  if r <=? 127 then String (ofByte r) ""
  else if r <=? 2047 then
    String (ofByte (Z.lor 192 (Z.shiftr r 6))) (String (tx r) "")
  else
    let r3 := if (MaxRune <? r) || ((surrogateMin <=? r) && (r <=? surrogateMax))
              then RuneError else r in
    if r3 <=? 65535 then
      String (ofByte (Z.lor 224 (Z.shiftr r3 12)))
        (String (tx (Z.shiftr r3 6)) (String (tx r3) ""))
    else
      String (ofByte (Z.lor 240 (Z.shiftr r 18)))
        (String (tx (Z.shiftr r 12))
           (String (tx (Z.shiftr r 6)) (String (tx r) ""))).

End utf8.

Module unicode.

(** [func ToLower(r rune) rune].  Above ASCII the function looks the rune
    up in the case table of Unicode.  Two runes there have their lower case
    in ASCII: U+0130, the capital I with a dot above, whose lower case is
    [i], and U+212A, the Kelvin sign, whose lower case is [k].  The lower
    case of every other rune above ASCII is itself above ASCII; such a
    rune is left as it is here, which changes no comparison of the result
    with ASCII text. *)
Definition ToLower (r : Z) : Z :=
  if r <=? 127 then
    if (65 <=? r) && (r <=? 90) then r + 32 else r
  else if r =? 304 then 105
  else if r =? 8490 then 107
  else r.

End unicode.

Module bytes.

(** [s[n:]] *)
Fixpoint skip (n : nat) (s : string) : string :=
  match n, s with
  | S n', String _ r => skip n' r
  | _, _ => s
  end.

(** The loop of [Map]: [for i := 0; i < len(s); { ...; i += wid }].  Every
    round passes at least one byte, so [len(s)] rounds are enough. *)
Fixpoint Map_loop (fuel : nat) (mapping : Z -> Z) (s : string) : string :=
  match fuel, s with
  | S fuel', String _ _ =>
      let (r, wid) := utf8.DecodeRune s in
      let r' := mapping r in
      (if 0 <=? r' then utf8.AppendRune r' else "") +:+
      Map_loop fuel' mapping (skip wid s)
  | _, _ => ""
  end.

(** [func Map(mapping func(r rune) rune, s []byte) []byte] *)
Definition Map (mapping : Z -> Z) (s : string) : string :=
  Map_loop (String.length s) mapping s.

Fixpoint isASCII (s : string) : bool :=
  match s with
  | EmptyString => true
  | String c r => (utf8.byteOf c <? utf8.RuneSelf) && isASCII r
  end.

Fixpoint lowerASCII (s : string) : string :=
  match s with
  | EmptyString => EmptyString
  | String c r =>
      let b := utf8.byteOf c in
      String (if (65 <=? b) && (b <=? 90) then utf8.ofByte (b + 32) else c)
        (lowerASCII r)
  end.

(** [func ToLower(s []byte) []byte]: ASCII text is lowered byte by byte,
    any other text rune by rune. *)
Definition ToLower (s : string) : string :=
  if isASCII s then lowerASCII s else Map unicode.ToLower s.

End bytes.

(** ** The store of atomic cells

    Every [zap.AtomicLevel] made by [zap.NewAtomicLevelAt] (or filled in by
    the YAML decoder) owns one [atomic.Int32]; the store lists them by
    address.  Closures and loggers that share an [AtomicLevel] share the
    address, so a write through one is seen by all. *)

Abbreviation Heap := (list Z).

(** ** [github.com/natefinch/lumberjack] *)

Module lumberjack.

(** The fields of [lumberjack.Logger] that the facade sets.  The file is
    opened on the first write, not when the value is made. *)
Record Logger := {
  Filename : string;
  MaxSize : Z;
  MaxBackups : Z;
  MaxAge : Z;
  Compress : bool
}.

End lumberjack.

(** ** [go.uber.org/zap/zapcore] *)

Module zapcore.

(** [type Level int8] *)
Definition Level := Z.

Definition DebugLevel : Level := -1.
Definition InfoLevel : Level := 0.
Definition WarnLevel : Level := 1.
Definition ErrorLevel : Level := 2.
Definition DPanicLevel : Level := 3.
Definition PanicLevel : Level := 4.
Definition FatalLevel : Level := 5.

(** The value of an integer once stored in an [int8]. *)
Definition wrap8 (z : Z) : Z := (z + 128) mod 256 - 128.

(** Go's [-] on two [Level]s. *)
Definition sub (a b : Level) : Level := wrap8 (a - b).

Definition is_int8 (z : Z) : Prop := -128 <= z <= 127.

(** [func (l *Level) unmarshalText(text []byte) bool] *)
Definition unmarshalText (text : string) : option Level :=
  if String.eqb text "debug" || String.eqb text "DEBUG" then Some DebugLevel
  else if String.eqb text "info" || String.eqb text "INFO" || String.eqb text ""
  then Some InfoLevel
  else if String.eqb text "warn" || String.eqb text "WARN" then Some WarnLevel
  else if String.eqb text "error" || String.eqb text "ERROR" then Some ErrorLevel
  else if String.eqb text "dpanic" || String.eqb text "DPANIC" then Some DPanicLevel
  else if String.eqb text "panic" || String.eqb text "PANIC" then Some PanicLevel
  else if String.eqb text "fatal" || String.eqb text "FATAL" then Some FatalLevel
  else None.

(** [func (l *Level) Set(s string) error], which is [UnmarshalText]:
    [!l.unmarshalText(text) && !l.unmarshalText(bytes.ToLower(text))] is
    the error "unrecognized level".  [Some l] is the level parsed (the
    error is nil), [None] is the error. *)
Definition Set_ (s : string) : option Level :=
  match unmarshalText s with
  | Some l => Some l
  | None => unmarshalText (bytes.ToLower s)
  end.

(** The encoder functions a configuration may name; [None] in a field of
    [EncoderConfig] is the nil function. *)
Inductive LevelEncoder :=
  LowercaseLevelEncoder | LowercaseColorLevelEncoder
| CapitalLevelEncoder | CapitalColorLevelEncoder.
Inductive TimeEncoder :=
  EpochTimeEncoder | EpochMillisTimeEncoder | EpochNanosTimeEncoder
| ISO8601TimeEncoder | RFC3339TimeEncoder | RFC3339NanoTimeEncoder.
Inductive DurationEncoder :=
  SecondsDurationEncoder | NanosDurationEncoder | StringDurationEncoder.
Inductive CallerEncoder := FullCallerEncoder | ShortCallerEncoder.

Record EncoderConfig := {
  MessageKey : string;
  LevelKey : string;
  TimeKey : string;
  NameKey : string;
  CallerKey : string;
  StacktraceKey : string;
  EncodeLevel : option LevelEncoder;
  EncodeTime : option TimeEncoder;
  EncodeDuration : option DurationEncoder;
  EncodeCaller : option CallerEncoder
}.

(** The zero value [zapcore.EncoderConfig{}]. *)
Definition EncoderConfig_zero : EncoderConfig :=
  {| MessageKey := ""; LevelKey := ""; TimeKey := ""; NameKey := "";
     CallerKey := ""; StacktraceKey := "";
     EncodeLevel := None; EncodeTime := None;
     EncodeDuration := None; EncodeCaller := None |}.

Inductive Encoder :=
| jsonEncoder (cfg : EncoderConfig)
| consoleEncoder (cfg : EncoderConfig).

Definition NewJSONEncoder (cfg : EncoderConfig) : Encoder := jsonEncoder cfg.
Definition NewConsoleEncoder (cfg : EncoderConfig) : Encoder := consoleEncoder cfg.

(** Where a core writes. *)
Inductive WriteSyncer :=
| os_Stdout
| lumberjackWriter (l : lumberjack.Logger)
| openedPaths (paths : list string).

(** [zapcore.AddSync] wraps a writer; the wrapped writer is the same
    destination. *)
Definition AddSync (w : WriteSyncer) : WriteSyncer := w.

(** [type LevelEnabler interface { Enabled(Level) bool }].  An enabler may
    read the store; [None] is a panic of the call. *)
Definition LevelEnabler := Heap -> Level -> option bool.

(** [zap.LevelEnablerFunc(f)] is [f] itself. *)
Definition LevelEnablerFunc (f : Heap -> Level -> option bool) : LevelEnabler := f.

Inductive Core :=
| ioCore (enc : Encoder) (out : WriteSyncer) (enab : LevelEnabler)
| multiCore (cores : list Core)
| nopCore.

Definition NewCore (enc : Encoder) (ws : WriteSyncer) (enab : LevelEnabler) : Core :=
  ioCore enc ws enab.

(** [func NewTee(cores ...Core) Core] *)
Definition NewTee (cores : list Core) : Core :=
  match cores with
  | [] => nopCore
  | [c] => c
  | _ => multiCore cores
  end.

(** The writers that receive an entry of level [lvl]: [ioCore.Check] adds
    the core when its enabler accepts the level, [multiCore.Check] asks
    every core in order. *)
Fixpoint Check (c : Core) (h : Heap) (lvl : Level) : option (list WriteSyncer) :=
  match c with
  | ioCore _ out enab =>
      match enab h lvl with
      | Some true => Some [out]
      | Some false => Some []
      | None => None
      end
  | multiCore cores =>
      (fix all (cs : list Core) : option (list WriteSyncer) :=
         match cs with
         | [] => Some []
         | c' :: r =>
             match Check c' h lvl with
             | Some ws =>
                 match all r with
                 | Some ws' => Some (ws ++ ws')
                 | None => None
                 end
             | None => None
             end
         end) cores
  | nopCore => Some []
  end.

End zapcore.

(** ** [go.uber.org/zap] *)

Module zap.

Import zapcore.

(** [type AtomicLevel struct { l *atomic.Int32 }] *)
Definition AtomicLevel := option nat.

(** [zap.NewAtomicLevelAt(l)]: a new cell holding [l]. *)
Definition NewAtomicLevelAt (l : Level) (h : Heap) : AtomicLevel * Heap :=
  (Some (length h), h ++ [l]).

(** [func (lvl AtomicLevel) Level() zapcore.Level]:
    [zapcore.Level(int8(lvl.l.Load()))]; [None] is the nil dereference. *)
Definition Level_ (lvl : AtomicLevel) (h : Heap) : option Level :=
  match lvl with
  | Some a => wrap8 <$> h !! a
  | None => None
  end.

(** [func (lvl AtomicLevel) SetLevel(l zapcore.Level)]: [lvl.l.Store];
    [None] is the nil dereference.  (An address without a cell does not
    occur in Go; the model treats it as it treats nil.) *)
Definition SetLevel (lvl : AtomicLevel) (l : Level) (h : Heap) : option Heap :=
  match lvl with
  | Some a => if (a <? length h)%nat then Some (<[a := l]> h) else None
  | None => None
  end.

(** [func (lvl AtomicLevel) Enabled(l zapcore.Level) bool]:
    [l >= lvl.Level()]. *)
Definition Enabled (lvl : AtomicLevel) : LevelEnabler :=
  fun h l => match Level_ lvl h with
             | Some L => Some (L <=? l)
             | None => None
             end.

(** The fields of [zap.Config] that the facade or [Build] reads. *)
Record Config := {
  Level : AtomicLevel;
  Development : bool;
  Encoding : string;
  EncoderConfig_ : EncoderConfig;
  OutputPaths : list string;
  ErrorOutputPaths : list string
}.

(** The zero value [zap.Config{}]. *)
Definition Config_zero : Config :=
  {| Level := None; Development := false; Encoding := "";
     EncoderConfig_ := EncoderConfig_zero;
     OutputPaths := []; ErrorOutputPaths := [] |}.

Record Logger := {
  core : Core;
  development : bool;
  errorOutput : WriteSyncer;
  callerSkip : Z
}.

Inductive Option_ :=
| AddCallerSkip (skip : Z)
| WrapCore (f : Core -> Core).

Definition apply (o : Option_) (log : Logger) : Logger :=
  match o with
  | AddCallerSkip skip =>
      {| core := core log; development := development log;
         errorOutput := errorOutput log; callerSkip := callerSkip log + skip |}
  | WrapCore f =>
      {| core := f (core log); development := development log;
         errorOutput := errorOutput log; callerSkip := callerSkip log |}
  end.

(** [func (log *Logger) WithOptions(opts ...Option) *Logger] *)
Definition WithOptions (log : Logger) (opts : list Option_) : Logger :=
  fold_left (fun l o => apply o l) opts log.

(** [newEncoder(name, encoderConfig)]: a time key without a time encoder
    is the error "missing EncodeTime in EncoderConfig"; the encoders that
    zap registers are "console" and "json", and an empty or unknown name is
    an error.  [None] is the result [nil, err]. *)
Definition newEncoder (name : string) (encoderConfig : EncoderConfig)
  : option Encoder :=
  if negb (String.eqb (TimeKey encoderConfig) "") &&
     match EncodeTime encoderConfig with None => true | Some _ => false end
  then None
  else if String.eqb name "" then None
  else if String.eqb name "console" then Some (NewConsoleEncoder encoderConfig)
  else if String.eqb name "json" then Some (NewJSONEncoder encoderConfig)
  else None.

(** [func (cfg Config) buildEncoder() (zapcore.Encoder, error)] *)
Definition buildEncoder (cfg : Config) : option Encoder :=
  newEncoder (Encoding cfg) (EncoderConfig_ cfg).

(** [zap.Open(paths...)]: "stdout" and "stderr" are the process's streams;
    any other path is a file that the operating system ([canOpen]) may
    refuse. *)
Definition Open (canOpen : string -> bool) (paths : list string) : option WriteSyncer :=
  if forallb (fun p => String.eqb p "stdout" || String.eqb p "stderr" || canOpen p) paths
  then Some (openedPaths paths)
  else None.

(** [func (cfg Config) Build(opts ...Option)], which returns a logger and an
    error.  [None] is the result [nil, err]: the encoder cannot be built, a
    sink cannot be opened, or the level is the zero [AtomicLevel]
    ("missing Level"). *)
Definition Build (canOpen : string -> bool) (cfg : Config) (opts : list Option_)
  : option Logger :=
  match buildEncoder cfg with
  | None => None
  | Some enc =>
      match Open canOpen (OutputPaths cfg), Open canOpen (ErrorOutputPaths cfg) with
      | Some sink, Some errSink =>
          match Level cfg with
          | None => None
          | Some _ =>
              let log :=
                {| core := NewCore enc sink (Enabled (Level cfg));
                   development := Development cfg;
                   errorOutput := errSink;
                   callerSkip := 0 |} in
              Some (WithOptions log opts)
          end
      | _, _ => None
      end
  end.

(** [func (log *Logger) Sugar() *SugaredLogger]: it copies [*log], so a
    nil receiver is a nil dereference ([None]). *)
Definition Sugar (log : option Logger) : option Logger :=
  match log with
  | Some l =>
      Some {| core := core l; development := development l;
              errorOutput := errorOutput l; callerSkip := callerSkip l + 2 |}
  | None => None
  end.

End zap.

(** ** [gopkg.in/yaml.v2] *)

Module yaml.

(** What [yaml.Unmarshal] found in a document for the keys of
    [ConfigWrapper].  The level is the parsed text of the [level] key when
    the document has one: zap's [AtomicLevel.UnmarshalText] allocates the
    atomic cell only then, and a document without the key leaves the zero
    [AtomicLevel]. *)
Record Decoded := {
  level : option zapcore.Level;
  development : bool;
  encoding : string;
  encoderConfig : zapcore.EncoderConfig;
  outputPaths : list string;
  errorOutputPaths : list string;
  logFilePath : string;
  errorFilename : string;
  warnFilename : string;
  infoFilename : string;
  maxSize : Z;
  maxBackups : Z;
  maxAge : Z;
  compress : bool
}.

End yaml.

(** ** The facade: [common/logger/logger.go] *)

Definition error := string.

(** The result of a call into the operating system or the YAML decoder. *)
Inductive ioresult (A : Type) :=
| io_ok (a : A)
| io_err (err : error).
Arguments io_ok {A} a.
Arguments io_err {A} err.

(** What the facade asks of its environment. *)
Record Env := {
  Separator : string;                       (* string(filepath.Separator) *)
  ReadFile : string -> ioresult string;     (* ioutil.ReadFile *)
  Unmarshal : string -> ioresult yaml.Decoded;  (* yaml.Unmarshal *)
  canOpen : string -> bool                  (* whether a sink path opens *)
}.

Record RollingFileConfig := {
  LogFilePath : string;
  ErrorFilename : string;
  WarnFilename : string;
  InfoFilename : string;
  MaxSize : Z;
  MaxBackups : Z;
  MaxAge : Z;
  Compress : bool
}.

Record ConfigWrapper := {
  LogConfig : zap.Config;
  Rolling : RollingFileConfig
}.

(** An entry handed to a writer. *)
Definition Entry : Type := zapcore.WriteSyncer * zapcore.Level * string.

(** The leveled methods of the [Logger] interface; a formatted variant
    ([Infof], ...) is the method at the same level with the formatted
    message. *)
Inductive Method := Info | Warn | Error | Debug | Fatal.

(** How the body of a method ends. *)
Inductive Ending :=
| ends
| endsInPanic (msg : string)
| endsInExit (code : Z).

(** What a method of a client's implementation does to the state of the
    facade.  The package variable and getty's slot are out of its reach
    ([logger] is not exported, and a call of the package made inside a
    method is a call in its own right).  Within its reach are the atomic
    levels and the zap loggers that the client holds: the method stores
    into levels ([lvl.SetLevel(l)]), makes new ones
    ([zap.NewAtomicLevelAt(l)]) and hands entries to writers, and then
    returns, panics or exits. *)
Record Effect := {
  stores : list (nat * zapcore.Level);
  created : list zapcore.Level;
  handed : list Entry;
  ending : Ending
}.

(** The implementations of the [Logger] interface: zap's sugared logger,
    the facade's [*DubboLogger] (a struct embedding a [Logger] beside its
    [dynamicLevel]), and the implementations of clients.  Of these the
    model has the identity [id] and the methods: what a leveled method
    does with a message, and what [SetLoggerLevel] does with a name when
    the type has that method.  A method may read the atomic levels.  An
    interface value is [None] when nil; a nil [*DubboLogger] behaves as
    the [DubboLogger] without a [Logger] and with the zero level. *)
Inductive LoggerImpl : Type :=
| SugaredLogger (base : zap.Logger)
| DubboLogger (Logger_ : option LoggerImpl) (dynamicLevel : zap.AtomicLevel)
| ForeignLogger (id : nat)
    (leveled : Method -> string -> Heap -> Effect)
    (SetLoggerLevel_ : option (string -> Heap -> Effect)).

Definition Logger := option LoggerImpl.

(** The state of the process that the facade reads and writes. *)
Record State := {
  logger : Logger;          (* var logger Logger *)
  getty_log : Logger;       (* getty's logger slot *)
  levels : Heap;            (* the atomic level cells *)
  written : list Entry      (* the entries handed to writers, oldest first *)
}.

Definition set_logger (l : Logger) (st : State) : State :=
  {| logger := l; getty_log := getty_log st; levels := levels st; written := written st |}.
Definition set_getty_log (l : Logger) (st : State) : State :=
  {| logger := logger st; getty_log := l; levels := levels st; written := written st |}.
Definition set_levels (h : Heap) (st : State) : State :=
  {| logger := logger st; getty_log := getty_log st; levels := h; written := written st |}.
Definition add_written (es : list Entry) (st : State) : State :=
  {| logger := logger st; getty_log := getty_log st; levels := levels st;
     written := written st ++ es |}.

(** *** Computations *)

Inductive Outcome (A : Type) :=
| Returns (a : A) (st : State)
| Panics (msg : string)
| Exits (code : Z) (st : State).
Arguments Returns {A} a st.
Arguments Panics {A} msg.
Arguments Exits {A} code st.

Definition M (A : Type) : Type := State -> Outcome A.

Definition ret {A} (a : A) : M A := fun st => Returns a st.

Definition bind {A B} (c : M A) (k : A -> M B) : M B :=
  fun st =>
    match c st with
    | Returns a st' => k a st'
    | Panics msg => Panics msg
    | Exits code st' => Exits code st'
    end.

Notation "x <- c ;; k" := (bind c (fun x => k))
  (at level 100, c at next level, right associativity).
Notation "c ;; k" := (bind c (fun _ => k))
  (at level 100, right associativity).

Definition nil_dereference : string :=
  "runtime error: invalid memory address or nil pointer dereference".

(** The value of a call that panics when it has none. *)
Definition orPanic {A} (o : option A) : M A :=
  fun st => match o with
            | Some a => Returns a st
            | None => Panics nil_dereference
            end.

Definition NewAtomicLevelAt (l : zapcore.Level) : M zap.AtomicLevel :=
  fun st => let (lvl, h) := zap.NewAtomicLevelAt l (levels st) in
            Returns lvl (set_levels h st).

Module getty.
(** [func SetLogger(logger Logger) { log = logger }] *)
Definition SetLogger (l : Logger) : M unit :=
  fun st => Returns tt (set_getty_log l st).
End getty.

(** *** [initLumberjackLogger] *)

Definition initLumberjackLogger (env : Env) (filename : string)
    (fileConfig : RollingFileConfig) : lumberjack.Logger :=
  {| lumberjack.Filename := LogFilePath fileConfig +:+ Separator env +:+ filename;
     lumberjack.MaxSize := MaxSize fileConfig;
     lumberjack.MaxBackups := MaxBackups fileConfig;
     lumberjack.MaxAge := MaxAge fileConfig;
     lumberjack.Compress := Compress fileConfig |}.

(** *** The closures of [InitLoggerWithRolling]

    Each closure captures [zapLoggerConfig] and reads its level when it is
    called.  Go's [&&] evaluates its right operand only when the left one
    is true. *)

Definition infoLevel (zapLoggerConfig : zap.Config) : zapcore.LevelEnabler :=
  zapcore.LevelEnablerFunc (fun h level =>
    if level =? zapcore.InfoLevel then
      match zap.Level_ (zap.Level zapLoggerConfig) h with
      | Some L =>
          Some (zapcore.sub (zapcore.sub level zapcore.InfoLevel) L >? -1)
      | None => None
      end
    else Some false).

Definition warnLevel (zapLoggerConfig : zap.Config) : zapcore.LevelEnabler :=
  zapcore.LevelEnablerFunc (fun h level =>
    if level =? zapcore.WarnLevel then
      match zap.Level_ (zap.Level zapLoggerConfig) h with
      | Some L => Some (zapcore.sub zapcore.WarnLevel L >? -1)
      | None => None
      end
    else Some false).

Definition errorLevel (zapLoggerConfig : zap.Config) : zapcore.LevelEnabler :=
  zapcore.LevelEnablerFunc (fun h level =>
    if level >? zapcore.WarnLevel then
      match zap.Level_ (zap.Level zapLoggerConfig) h with
      | Some L => Some (zapcore.sub zapcore.WarnLevel L >? -1)
      | None => None
      end
    else Some false).

Definition consoleLevel (zapLoggerConfig : zap.Config) : zapcore.LevelEnabler :=
  zapcore.LevelEnablerFunc (fun h level =>
    match zap.Level_ (zap.Level zapLoggerConfig) h with
    | Some L => Some (zapcore.sub level L >? -1)
    | None => None
    end).

(** *** [InitLoggerWithRolling] *)

(** The configuration used when [conf == nil]. *)
Definition defaultEncoderConfig : zapcore.EncoderConfig :=
  {| zapcore.TimeKey := "time";
     zapcore.LevelKey := "level";
     zapcore.NameKey := "logger";
     zapcore.CallerKey := "caller";
     zapcore.MessageKey := "message";
     zapcore.StacktraceKey := "stacktrace";
     zapcore.EncodeLevel := Some zapcore.CapitalLevelEncoder;
     zapcore.EncodeTime := Some zapcore.ISO8601TimeEncoder;
     zapcore.EncodeDuration := Some zapcore.SecondsDurationEncoder;
     zapcore.EncodeCaller := Some zapcore.ShortCallerEncoder |}.

Definition resolveConfig (conf : option zap.Config) : M zap.Config :=
  match conf with
  | None =>
      let zapLoggerEncoderConfig := defaultEncoderConfig in
      lvl <- NewAtomicLevelAt zapcore.DebugLevel ;;
      ret {| zap.Level := lvl;
             zap.Development := false;
             zap.Encoding := "console";
             zap.EncoderConfig_ := zapLoggerEncoderConfig;
             zap.OutputPaths := ["stderr"];
             zap.ErrorOutputPaths := ["stderr"] |}
  | Some c => ret c
  end.

(** The rolling configuration used when [rolling == nil]. *)
Definition resolveRolling (rolling : option RollingFileConfig) : RollingFileConfig :=
  match rolling with
  | None =>
      {| LogFilePath := "./logs";
         ErrorFilename := "dubbo-error.log";
         WarnFilename := "dubbo-warn.log";
         InfoFilename := "dubbo-info.log";
         MaxSize := 30;
         MaxBackups := 1;
         MaxAge := 3;
         Compress := false |}
  | Some r => r
  end.

(** The four cores of the tee. *)
Definition zapCores (env : Env) (zapLoggerConfig : zap.Config)
    (lumberjackRolling : RollingFileConfig) : list zapcore.Core :=
  let logEncoder := zapcore.NewJSONEncoder (zap.EncoderConfig_ zapLoggerConfig) in
  let infoLogger :=
    initLumberjackLogger env (InfoFilename lumberjackRolling) lumberjackRolling in
  let warnLogger :=
    initLumberjackLogger env (WarnFilename lumberjackRolling) lumberjackRolling in
  let errorLogger :=
    initLumberjackLogger env (ErrorFilename lumberjackRolling) lumberjackRolling in
  [ zapcore.NewCore logEncoder (zapcore.AddSync (zapcore.lumberjackWriter infoLogger))
      (infoLevel zapLoggerConfig);
    zapcore.NewCore logEncoder (zapcore.AddSync (zapcore.lumberjackWriter warnLogger))
      (warnLevel zapLoggerConfig);
    zapcore.NewCore logEncoder (zapcore.AddSync (zapcore.lumberjackWriter errorLogger))
      (errorLevel zapLoggerConfig);
    zapcore.NewCore logEncoder (zapcore.AddSync zapcore.os_Stdout)
      (consoleLevel zapLoggerConfig) ].

Definition InitLoggerWithRolling (env : Env) (conf : option zap.Config)
    (rolling : option RollingFileConfig) : M unit :=
  zapLoggerConfig <- resolveConfig conf ;;
  let lumberjackRolling := resolveRolling rolling in
  let cores := zapCores env zapLoggerConfig lumberjackRolling in
  (* zapLogger, _ := zapLoggerConfig.Build(...): the error is dropped *)
  let zapLogger :=
    zap.Build (canOpen env) zapLoggerConfig
      [ zap.AddCallerSkip 1; zap.WrapCore (fun _ => zapcore.NewTee cores) ] in
  sugar <- orPanic (zap.Sugar zapLogger) ;;
  (fun st => Returns tt
     (set_logger
        (Some (DubboLogger (Some (SugaredLogger sugar)) (zap.Level zapLoggerConfig)))
        st)) ;;
  (* set getty log *)
  (fun st => getty.SetLogger (logger st) st).

(** *** [InitLogger] *)

Definition InitLogger (env : Env) (conf : option zap.Config) : M unit :=
  InitLoggerWithRolling env conf None.

(** *** [InitLog] *)

Module perrors.
(** An error is known by its message. *)
Definition New (message : string) : error := message.
End perrors.

(** [yaml.Unmarshal(confFileStream, logConfig)] on the zero [ConfigWrapper]:
    the decoded keys are stored, and a decoded level gets a new cell. *)
Definition storeDecoded (d : yaml.Decoded) : M ConfigWrapper :=
  lvl <- match yaml.level d with
         | Some l => NewAtomicLevelAt l
         | None => ret None
         end ;;
  ret {| LogConfig :=
           {| zap.Level := lvl;
              zap.Development := yaml.development d;
              zap.Encoding := yaml.encoding d;
              zap.EncoderConfig_ := yaml.encoderConfig d;
              zap.OutputPaths := yaml.outputPaths d;
              zap.ErrorOutputPaths := yaml.errorOutputPaths d |};
         Rolling :=
           {| LogFilePath := yaml.logFilePath d;
              ErrorFilename := yaml.errorFilename d;
              WarnFilename := yaml.warnFilename d;
              InfoFilename := yaml.infoFilename d;
              MaxSize := yaml.maxSize d;
              MaxBackups := yaml.maxBackups d;
              MaxAge := yaml.maxAge d;
              Compress := yaml.compress d |} |}.

Definition InitLog (env : Env) (logConfFile : string) : M (option error) :=
  if String.eqb logConfFile "" then
    InitLoggerWithRolling env None None ;;
    ret (Some (perrors.New "log configure file name is nil"))
  else if negb (String.eqb (path.Ext logConfFile) ".yml") then
    InitLoggerWithRolling env None None ;;
    ret (Some ("log configure file name{" +:+ logConfFile +:+ "} suffix must be .yml"))
  else
    match ReadFile env logConfFile with
    | io_err err =>
        InitLoggerWithRolling env None None ;;
        ret (Some ("ioutil.ReadFile(file:" +:+ logConfFile +:+ ") = error:" +:+ err))
    | io_ok confFileStream =>
        match Unmarshal env confFileStream with
        | io_err err =>
            InitLoggerWithRolling env None None ;;
            ret (Some ("yaml.Unmarshal(file:" +:+ logConfFile +:+ ") = error:" +:+ err))
        | io_ok decoded =>
            logConfig <- storeDecoded decoded ;;
            InitLoggerWithRolling env (Some (LogConfig logConfig))
              (Some (Rolling logConfig)) ;;
            ret None
        end
    end.

(** *** [SetLogger], [GetLogger] *)

Definition SetLogger (log : Logger) : M unit :=
  (fun st => Returns tt (set_logger log st)) ;;
  (fun st => getty.SetLogger (logger st) st).

Definition GetLogger : M Logger :=
  fun st => Returns (logger st) st.

(** *** [SetLoggerLevel] *)

(** [func (dl *DubboLogger) SetLoggerLevel(level string)] *)
Definition DubboLogger_SetLoggerLevel (dynamicLevel : zap.AtomicLevel)
    (level : string) : M unit :=
  match zapcore.Set_ level with
  | Some l =>
      fun st => match zap.SetLevel dynamicLevel l (levels st) with
                | Some h => Returns tt (set_levels h st)
                | None => Panics nil_dereference
                end
  | None => ret tt
  end.

(** The method set of an implementation has [SetLoggerLevel]: the type
    assertion [logger.(OpsLogger)] succeeds. *)
Definition isOpsLogger (l : Logger) : bool :=
  match l with
  | Some (DubboLogger _ _) => true
  | Some (ForeignLogger _ _ (Some _)) => true
  | Some (ForeignLogger _ _ None) => false
  | Some (SugaredLogger _) => false
  | None => false
  end.

(** [lvl.SetLevel(l)] on a level that a client holds. *)
Definition store (h : Heap) (w : nat * zapcore.Level) : Heap :=
  <[fst w := snd w]> h.

(** A call of a method of a client's implementation. *)
Definition runMethod (method : Heap -> Effect) : M unit :=
  fun st =>
    let e := method (levels st) in
    let st' :=
      add_written (handed e)
        (set_levels (fold_left store (stores e) (levels st) ++ created e) st) in
    match ending e with
    | ends => Returns tt st'
    | endsInPanic msg => Panics msg
    | endsInExit code => Exits code st'
    end.

(** [l.SetLoggerLevel(level)] on the dynamic type of [l].  The call is
    made only after the type assertion to [OpsLogger] has succeeded, so
    the last case, a type without the method, is never reached. *)
Definition OpsLogger_SetLoggerLevel (l : LoggerImpl) (level : string) : M unit :=
  match l with
  | DubboLogger _ dynamicLevel => DubboLogger_SetLoggerLevel dynamicLevel level
  | ForeignLogger _ _ (Some method) => runMethod (method level)
  | _ => ret tt
  end.

Definition SetLoggerLevel (level : string) : M bool :=
  fun st =>
    match logger st with
    | Some l =>
        if isOpsLogger (Some l) then
          (OpsLogger_SetLoggerLevel l level ;; ret true) st
        else Returns false st
    | None => Returns false st
    end.

(** *** Log calls *)

Definition levelOf (m : Method) : zapcore.Level :=
  match m with
  | Info => zapcore.InfoLevel
  | Warn => zapcore.WarnLevel
  | Error => zapcore.ErrorLevel
  | Debug => zapcore.DebugLevel
  | Fatal => zapcore.FatalLevel
  end.

(** zap's sugared logger logging [msg] at [lvl]: the cores that accept the
    level receive the entry; at [FatalLevel] the process then exits with
    status 1. *)
Definition SugaredLogger_log (base : zap.Logger) (lvl : zapcore.Level)
    (msg : string) : M unit :=
  fun st =>
    match zapcore.Check (zap.core base) (levels st) lvl with
    | None => Panics nil_dereference
    | Some ws =>
        let st' := add_written (map (fun w => (w, lvl, msg)) ws) st in
        if lvl =? zapcore.FatalLevel then Exits 1 st' else Returns tt st'
    end.

(** A method call on an implementation.  [*DubboLogger] has the methods of
    its embedded [Logger]; a client's implementation has its own. *)
Fixpoint LoggerImpl_log (l : LoggerImpl) (m : Method) (msg : string) : M unit :=
  match l with
  | SugaredLogger base => SugaredLogger_log base (levelOf m) msg
  | DubboLogger inner _ =>
      match inner with
      | Some l' => LoggerImpl_log l' m msg
      | None => fun _ => Panics nil_dereference
      end
  | ForeignLogger _ leveled _ => runMethod (leveled m msg)
  end.

(** Modelled from the spec: the package-level functions [Info], [Warn],
    [Error], [Debug], [Fatal] and their formatted variants, which the
    tests call and which are not part of [logger.go].  A log call goes to
    the active logger; a method call on the nil interface panics. *)
Definition Log (m : Method) (msg : string) : M unit :=
  fun st =>
    match logger st with
    | Some l => LoggerImpl_log l m msg st
    | None => Panics nil_dereference
    end.

(** *** Observations used in the statements *)

(** The cores of the tee inside an implementation built by the facade. *)
Definition coresOf (l : Logger) : list zapcore.Core :=
  match l with
  | Some (DubboLogger (Some (SugaredLogger base)) _) =>
      match zap.core base with
      | zapcore.multiCore cores => cores
      | c => [c]
      end
  | Some (SugaredLogger base) =>
      match zap.core base with
      | zapcore.multiCore cores => cores
      | c => [c]
      end
  | _ => []
  end.

(** Whether the [i]-th core of the active logger accepts a level. *)
Definition sinkEnabled (i : nat) (st : State) (level : zapcore.Level) : option bool :=
  match coresOf (logger st) !! i with
  | Some (zapcore.ioCore _ _ enab) => enab (levels st) level
  | _ => None
  end.

(** The file writers among the cores of a logger. *)
Definition fileSinks (l : Logger) : list lumberjack.Logger :=
  flat_map (fun c => match c with
                     | zapcore.ioCore _ (zapcore.lumberjackWriter f) _ => [f]
                     | _ => []
                     end) (coresOf l).

(** The level that the dynamic level of the active logger holds. *)
Definition currentLevel (st : State) : option zapcore.Level :=
  match logger st with
  | Some (DubboLogger _ dynamicLevel) => zap.Level_ dynamicLevel (levels st)
  | _ => None
  end.

(** *** A sample environment and sample states *)

Definition sampleDecoded : yaml.Decoded :=
  {| yaml.level := Some zapcore.InfoLevel;
     yaml.development := false;
     yaml.encoding := "console";
     yaml.encoderConfig := defaultEncoderConfig;
     yaml.outputPaths := ["stderr"];
     yaml.errorOutputPaths := ["stderr"];
     yaml.logFilePath := "./logs";
     yaml.errorFilename := "error.log";
     yaml.warnFilename := "warn.log";
     yaml.infoFilename := "info.log";
     yaml.maxSize := 1;
     yaml.maxBackups := 2;
     yaml.maxAge := 3;
     yaml.compress := false |}.

(** The decoding of a document without any key: [ConfigWrapper] keeps its
    zero value. *)
Definition emptyDecoded : yaml.Decoded :=
  {| yaml.level := None;
     yaml.development := false;
     yaml.encoding := "";
     yaml.encoderConfig := zapcore.EncoderConfig_zero;
     yaml.outputPaths := [];
     yaml.errorOutputPaths := [];
     yaml.logFilePath := "";
     yaml.errorFilename := "";
     yaml.warnFilename := "";
     yaml.infoFilename := "";
     yaml.maxSize := 0;
     yaml.maxBackups := 0;
     yaml.maxAge := 0;
     yaml.compress := false |}.

(** A file system with [./log.yml] (a full configuration), [./empty.yml]
    (an empty document) and [./bad.yml] (not YAML). *)
Definition sampleEnv : Env :=
  {| Separator := "/";
     ReadFile := fun p =>
       if String.eqb p "./log.yml" then io_ok "log"
       else if String.eqb p "./empty.yml" then io_ok ""
       else if String.eqb p "./bad.yml" then io_ok ":"
       else io_err ("open " +:+ p +:+ ": no such file or directory");
     Unmarshal := fun s =>
       if String.eqb s "log" then io_ok sampleDecoded
       else if String.eqb s "" then io_ok emptyDecoded
       else io_err "yaml: did not find expected key";
     canOpen := fun _ => true |}.

(** The state of a process before any logger is installed. *)
Definition emptyState : State :=
  {| logger := None; getty_log := None; levels := []; written := [] |}.

(** A computation that does not panic. *)
Definition noPanic {A} (o : Outcome A) : Prop :=
  match o with
  | Panics _ => False
  | _ => True
  end.

(** [cfg.Build()] returns a logger (its error is nil). *)
Definition buildable (env : Env) (cfg : zap.Config) : bool :=
  match zap.Build (canOpen env) cfg [] with
  | Some _ => true
  | None => false
  end.

(** The logger that [InitLoggerWithRolling] makes from a resolved
    configuration: the sugared logger over the tee of the four cores,
    wrapped in a [DubboLogger] that shares the level of the configuration. *)
Definition facadeLogger (env : Env) (cfg : zap.Config) (lr : RollingFileConfig)
  : LoggerImpl :=
  DubboLogger
    (Some (SugaredLogger
             {| zap.core := zapcore.multiCore (zapCores env cfg lr);
                zap.development := zap.Development cfg;
                zap.errorOutput := zapcore.openedPaths (zap.ErrorOutputPaths cfg);
                zap.callerSkip := 3 |}))
    (zap.Level cfg).

(** The state once [l] is installed in both logger slots. *)
Definition installed (l : LoggerImpl) (st : State) : State :=
  {| logger := Some l; getty_log := Some l;
     levels := levels st; written := written st |}.

(** The configuration that [resolveConfig] makes when [conf == nil] and the
    store has [n] cells. *)
Definition defaultConfig (n : nat) : zap.Config :=
  {| zap.Level := Some n;
     zap.Development := false;
     zap.Encoding := "console";
     zap.EncoderConfig_ := defaultEncoderConfig;
     zap.OutputPaths := ["stderr"];
     zap.ErrorOutputPaths := ["stderr"] |}.

(** The state after [InitLoggerWithRolling(nil, nil)]. *)
Definition defaultInstalled (env : Env) (st : State) : State :=
  installed
    (facadeLogger env (defaultConfig (length (levels st))) (resolveRolling None))
    (set_levels (levels st ++ [zapcore.DebugLevel]) st).

(** A configuration as a caller makes it, with the level in the cell at
    address [a]: the value of [zap.NewAtomicLevelAt] in a store where [a]
    was the next free address. *)
Definition jsonConfigAt (a : nat) : zap.Config :=
  {| zap.Level := Some a;
     zap.Development := false;
     zap.Encoding := "json";
     zap.EncoderConfig_ := defaultEncoderConfig;
     zap.OutputPaths := ["stdout"];
     zap.ErrorOutputPaths := ["stderr"] |}.

(** The state of a process that has made one atomic level holding [l] and
    installed no logger yet. *)
Definition stateWithLevel (l : zapcore.Level) : State :=
  set_levels (snd (zap.NewAtomicLevelAt l [])) emptyState.

(** The state that a computation leaves. *)
Definition stateAfter {A} (c : M A) (st : State) : State :=
  match c st with
  | Returns _ st' => st'
  | Exits _ st' => st'
  | Panics _ => st
  end.

(** The state after [InitLoggerWithRolling] on a configuration whose level
    is [zapcore.Level(-128)], the lowest [int8]. *)
Definition lowestLevelState : State :=
  stateAfter (InitLoggerWithRolling sampleEnv (Some (jsonConfigAt 0)) None)
    (stateWithLevel (-128)).

(** The dynamic level of the active logger, when that is a [DubboLogger],
    is a created [AtomicLevel]: its cell exists.  (zap requires an
    [AtomicLevel] to be made by its constructor; the zero value has no
    cell.) *)
Definition levelCreated (st : State) : Prop :=
  match logger st with
  | Some (DubboLogger _ dynamicLevel) => is_Some (zap.Level_ dynamicLevel (levels st))
  | _ => True
  end.



(** The rolling configuration that the spec documents as the default. *)
Definition documentedRolling : RollingFileConfig :=
  {| LogFilePath := "./logs";
     ErrorFilename := "dubbo-error.log";
     WarnFilename := "dubbo-warn.log";
     InfoFilename := "dubbo-info.log";
     MaxSize := 30;
     MaxBackups := 1;
     MaxAge := 3;
     Compress := false |}.

(** A rolled file under [./logs] with the documented limits. *)
Definition defaultFile (env : Env) (filename : string) : lumberjack.Logger :=
  {| lumberjack.Filename := "./logs" +:+ Separator env +:+ filename;
     lumberjack.MaxSize := 30;
     lumberjack.MaxBackups := 1;
     lumberjack.MaxAge := 3;
     lumberjack.Compress := false |}.

(** The writers of the cores of a logger, in order. *)
Definition writersOf (l : Logger) : list zapcore.WriteSyncer :=
  flat_map (fun c => match c with
                     | zapcore.ioCore _ out _ => [out]
                     | _ => []
                     end) (coresOf l).

(** The [ConfigWrapper] that [storeDecoded] makes in a store of [n] cells. *)
Definition decodedWrapper (d : yaml.Decoded) (n : nat) : ConfigWrapper :=
  {| LogConfig :=
       {| zap.Level := match yaml.level d with Some _ => Some n | None => None end;
          zap.Development := yaml.development d;
          zap.Encoding := yaml.encoding d;
          zap.EncoderConfig_ := yaml.encoderConfig d;
          zap.OutputPaths := yaml.outputPaths d;
          zap.ErrorOutputPaths := yaml.errorOutputPaths d |};
     Rolling :=
       {| LogFilePath := yaml.logFilePath d;
          ErrorFilename := yaml.errorFilename d;
          WarnFilename := yaml.warnFilename d;
          InfoFilename := yaml.infoFilename d;
          MaxSize := yaml.maxSize d;
          MaxBackups := yaml.maxBackups d;
          MaxAge := yaml.maxAge d;
          Compress := yaml.compress d |} |}.

(** The calls that a client of the package can make. *)
Inductive Call :=
| CallInitLog (logConfFile : string)
| CallInitLoggerWithRolling (conf : option zap.Config) (rolling : option RollingFileConfig)
| CallInitLogger (conf : option zap.Config)
| CallSetLogger (log : Logger)
| CallGetLogger
| CallSetLoggerLevel (level : string)
| CallLog (m : Method) (msg : string).

(** A call, its result dropped. *)
Definition exec (env : Env) (c : Call) : M unit :=
  match c with
  | CallInitLog logConfFile => InitLog env logConfFile ;; ret tt
  | CallInitLoggerWithRolling conf rolling => InitLoggerWithRolling env conf rolling
  | CallInitLogger conf => InitLogger env conf
  | CallSetLogger log => SetLogger log
  | CallGetLogger => GetLogger ;; ret tt
  | CallSetLoggerLevel level => SetLoggerLevel level ;; ret tt
  | CallLog m msg => Log m msg
  end.

(** [TestSetLevel]: [InitLog("./log.yml")], [SetLoggerLevel("info")], then
    [SetLogger] of the [Logger] embedded in the active [DubboLogger], and
    [SetLoggerLevel("debug")]; the value is the pair of the two answers of
    [SetLoggerLevel]. *)
Definition TestSetLevel (env : Env) : M (bool * bool) :=
  InitLog env "./log.yml" ;;
  first <- SetLoggerLevel "info" ;;
  l <- GetLogger ;;
  match l with
  | Some (DubboLogger inner _) =>
      SetLogger inner ;;
      second <- SetLoggerLevel "debug" ;;
      ret (first, second)
  | _ => fun _ => Panics "interface conversion"
  end.

(** The atomic levels inside the values that a client hands to the package
    exist: an [AtomicLevel], in a configuration or in a [DubboLogger], is
    the zero value or has its cell.  (Go has no other [AtomicLevel]s.) *)
Definition callOk (st : State) (c : Call) : Prop :=
  match c with
  | CallSetLogger (Some (DubboLogger _ lvl)) =>
      lvl = None \/ is_Some (zap.Level_ lvl (levels st))
  | CallInitLoggerWithRolling (Some conf) _
  | CallInitLogger (Some conf) =>
      zap.Level conf = None \/ is_Some (zap.Level_ (zap.Level conf) (levels st))
  | _ => True
  end.

(** The states of a process that starts without a logger.  The client
    makes calls of the package that return (a call that panics leaves the
    state as it was), makes atomic levels of its own with
    [zap.NewAtomicLevelAt], for the configurations that it hands to the
    package, and stores into levels with [SetLevel]. *)
Inductive reachable (env : Env) : State -> Prop :=
| reachable_start : reachable env emptyState
| reachable_call c st st' :
    reachable env st ->
    callOk st c ->
    exec env c st = Returns tt st' ->
    reachable env st'
| reachable_NewAtomicLevelAt l lvl st st' :
    reachable env st ->
    NewAtomicLevelAt l st = Returns lvl st' ->
    reachable env st'
| reachable_SetLevel lvl l h st :
    reachable env st ->
    zap.SetLevel lvl l (levels st) = Some h ->
    reachable env (set_levels h st).

(** The dynamic level of the active logger, when that is a [DubboLogger],
    is the zero [AtomicLevel] or has its cell. *)
Definition levelZeroOrCreated (st : State) : Prop :=
  match logger st with
  | Some (DubboLogger _ lvl) => lvl = None \/ is_Some (zap.Level_ lvl (levels st))
  | _ => True
  end.

(** No code of a client runs in the methods of a logger: it is nil, zap's
    sugared logger, or a [DubboLogger] around one of these. *)
Fixpoint ownCode (l : LoggerImpl) : bool :=
  match l with
  | SugaredLogger _ => true
  | DubboLogger (Some inner) _ => ownCode inner
  | DubboLogger None _ => true
  | ForeignLogger _ _ _ => false
  end.

Definition noClientCode (l : Logger) : bool :=
  match l with
  | Some l' => ownCode l'
  | None => true
  end.

(** ** Go's [flag] package, for the flag set of [init]

    [init] makes a flag set with error handling [ContinueOnError] and one
    string flag, [logConf].  An error of [Parse] is printed and returned;
    [init] drops it, so only the arguments left over and the value of the
    flag matter here. *)

Module flag.

(** What [parseOne] makes of the first argument. *)
Inductive syntax :=
| NotFlag                (* shorter than two bytes, or not starting with '-' *)
| Terminator             (* "--" *)
| BadSyntax              (* an empty name, or a name starting with '-' or '=' *)
| Flag (name : string).  (* the text after the one or two minus signs *)

Definition nameOf (name : string) : syntax :=
  match name with
  | EmptyString => BadSyntax
  | String c _ =>
      if Ascii.eqb c "-" || Ascii.eqb c "=" then BadSyntax else Flag name
  end.

Definition classify (s : string) : syntax :=
  match s with
  | String m (String c r as t) =>
      if Ascii.eqb m "-" then
        if Ascii.eqb c "-" then
          match r with
          | EmptyString => Terminator
          | _ => nameOf r
          end
        else nameOf t
      else NotFlag
  | _ => NotFlag
  end.

(** The text before the first '=' and, when there is one, the text after
    it. *)
Fixpoint cut (s : string) : string * option string :=
  match s with
  | EmptyString => (EmptyString, None)
  | String c r =>
      if Ascii.eqb c "=" then (EmptyString, Some r)
      else let (n, v) := cut r in (String c n, v)
  end.

(** [for i := 1; i < len(name); i++ { if name[i] == '=' ... }]: the first
    byte of the name is never taken for the equals sign. *)
Definition splitValue (name : string) : string * option string :=
  match name with
  | EmptyString => (EmptyString, None)
  | String c r => let (n, v) := cut r in (String c n, v)
  end.

(** [fs.Parse(arguments)] for the flag set with the string flag [flagName]
    whose value is [value]: the arguments left in [fs.Args()], the value of
    the flag, and whether [Parse] returned an error.  Parsing stops at the
    first argument that is not a flag and after "--" (no error), and at bad
    syntax, at an undefined flag or at a flag without its value (an
    error); only at bad syntax is the offending argument left in
    [fs.Args()]. *)
Fixpoint Parse (flagName : string) (arguments : list string) (value : string)
  : list string * string * bool :=
  match arguments with
  | [] => ([], value, false)
  | s :: rest =>
      match classify s with
      | NotFlag => (arguments, value, false)
      | Terminator => (rest, value, false)
      | BadSyntax => (arguments, value, true)
      | Flag name =>
          let (n, v) := splitValue name in
          if String.eqb n flagName then
            match v with
            | Some x => Parse flagName rest x
            | None =>
                match rest with
                | x :: rest' => Parse flagName rest' x
                | [] => ([], value, true)
                end
            end
          else (rest, value, true)
      end
  end.

End flag.

(** *** [init] *)

(** What [init] reads of the process: [os.Args], [os.Getenv], and the
    constant [constant.APP_LOG_CONF_FILE], which is declared in another
    package of the repository. *)
Record Process := {
  Args : list string;
  Getenv : string -> string;
  APP_LOG_CONF_FILE : string
}.

(** [for len(fs.Args()) != 0 { fs.Parse(fs.Args()[1:]) }]: the value of the
    flag when the loop ends.  Every round drops at least one argument;
    [None] is the loop cut short after [fuel] rounds. *)
Fixpoint parseRest (fuel : nat) (args : list string) (value : string)
  : option string :=
  match args with
  | [] => Some value
  | _ :: tl =>
      match fuel with
      | O => None
      | S fuel' =>
          let '(args', value', _) := flag.Parse "logConf" tl value in
          parseRest fuel' args' value'
      end
  end.

(** [*logConfFile] after the two statements that parse [os.Args[1:]],
    given the arguments after the program name and the default of the
    flag. *)
Definition resolveLogConf (arguments : list string) (dflt : string) : option string :=
  let '(args', value', _) := flag.Parse "logConf" arguments dflt in
  parseRest (length args') args' value'.

(** [if err != nil { log.Printf("[InitLog] warn: %v", err) }]: the line
    printed, if any. *)
Definition warning (err : option error) : option string :=
  match err with
  | Some e => Some ("[InitLog] warn: " +:+ e)
  | None => None
  end.

(** [func init()].  The value is the line that [log.Printf] prints, if any:
    the standard logger is not part of the state of the facade. *)
Definition init_ (env : Env) (proc : Process) : M (option string) :=
  fun st =>
    match logger st with
    | Some _ => Returns None st       (* forbidden to executing twice *)
    | None =>
        match Args proc with
        | [] => Panics "runtime error: slice bounds out of range"
        | _ :: arguments =>
            match resolveLogConf arguments (Getenv proc (APP_LOG_CONF_FILE proc)) with
            | None => Panics "the loop over the arguments was cut short"
            | Some logConfFile =>
                (err <- InitLog env logConfFile ;; ret (warning err)) st
            end
        end
    end.

(** An argument that names the flag [logConf]. *)
Definition namesLogConf (s : string) : bool :=
  match flag.classify s with
  | flag.Flag name => String.eqb (fst (flag.splitValue name)) "logConf"
  | _ => false
  end.

(** An argument that is a flag, though not [logConf]: [Parse] reports it as
    not defined (or as a request for help). *)
Definition undefinedFlag (s : string) : bool :=
  match flag.classify s with
  | flag.Flag name => negb (String.eqb (fst (flag.splitValue name)) "logConf")
  | _ => false
  end.

(** The encoders of the cores of a logger, in order. *)
Definition encodersOf (l : Logger) : list zapcore.Encoder :=
  flat_map (fun c => match c with
                     | zapcore.ioCore enc _ _ => [enc]
                     | _ => []
                     end) (coresOf l).

(** A process started as a test binary with the flag after the test
    flags. *)
Definition sampleProcess : Process :=
  {| Args := ["logger.test"; "-test.v"; "-test.run"; "TestInitLog";
              "-logConf"; "./log.yml"];
     Getenv := fun name =>
       if String.eqb name "APP_LOG_CONF_FILE" then "/etc/dubbo/log.yml" else "";
     APP_LOG_CONF_FILE := "APP_LOG_CONF_FILE" |}.


(** The name of four runes U+0130, N, F, O.  The first, the capital I with
    a dot above, is the bytes C4 B0 in UTF-8. *)
Definition dotted_INFO : string :=
  String (ascii_of_nat 196) (String (ascii_of_nat 176) "NFO").

(** A method that does nothing to the state of the facade. *)
Definition noEffect : Effect :=
  {| stores := []; created := []; handed := []; ending := ends |}.

(** A client's implementation that keeps to itself and has no
    [SetLoggerLevel] method. *)
Definition silentLogger (id : nat) : LoggerImpl :=
  ForeignLogger id (fun _ _ _ => noEffect) None.

(** A client's implementation that holds the atomic level at [a] and
    whose [SetLoggerLevel] stores the level that the name parses to, as the
    method that a type embedding a [*DubboLogger] gets from it does. *)
Definition levelKeeper (id : nat) (a : nat) : LoggerImpl :=
  ForeignLogger id (fun _ _ _ => noEffect)
    (Some (fun level _ =>
             match zapcore.Set_ level with
             | Some l =>
                 {| stores := [(a, l)]; created := []; handed := [];
                    ending := ends |}
             | None => noEffect
             end)).


(** The method that a call runs is code of a client: a log call on a
    logger that is, or wraps, a client's implementation, or
    [SetLoggerLevel] on a client's implementation. *)
Definition runsClientCode (c : Call) (st : State) : bool :=
  match c with
  | CallLog _ _ => negb (noClientCode (logger st))
  | CallSetLoggerLevel _ =>
      match logger st with
      | Some (ForeignLogger _ _ _) => true
      | _ => false
      end
  | _ => false
  end.

(** * Properties *)

(** ** Arithmetic of [int8] levels *)

Lemma wrap8_range z : zapcore.is_int8 (zapcore.wrap8 z).
Proof.
  unfold zapcore.is_int8, zapcore.wrap8.
  pose proof (Z.mod_pos_bound (z + 128) 256 ltac:(lia)). lia.
Qed.

Lemma wrap8_id z : zapcore.is_int8 z -> zapcore.wrap8 z = z.
Proof.
  unfold zapcore.is_int8, zapcore.wrap8. intros Hz.
  rewrite Z.mod_small by lia. lia.
Qed.

Lemma sub_exact a b : zapcore.is_int8 (a - b) -> zapcore.sub a b = a - b.
Proof. apply wrap8_id. Qed.

(** The level read from an atomic cell is an [int8]. *)
Lemma Level_int8 lvl h L : zap.Level_ lvl h = Some L -> zapcore.is_int8 L.
Proof.
  destruct lvl as [a|]; simpl; [|discriminate].
  destruct (h !! a) as [z|]; simpl; [|discriminate].
  intros [= <-]. apply wrap8_range.
Qed.

(** ** What [InitLoggerWithRolling] does *)

Lemma Build_options canOpen cfg cores :
  zap.Build canOpen cfg
    [zap.AddCallerSkip 1; zap.WrapCore (fun _ => zapcore.NewTee cores)] =
  match zap.Build canOpen cfg [] with
  | Some l =>
      Some {| zap.core := zapcore.NewTee cores;
              zap.development := zap.development l;
              zap.errorOutput := zap.errorOutput l;
              zap.callerSkip := zap.callerSkip l + 1 |}
  | None => None
  end.
Proof.
  unfold zap.Build.
  destruct (zap.buildEncoder cfg); [|reflexivity].
  destruct (zap.Open canOpen (zap.OutputPaths cfg)); [|reflexivity].
  destruct (zap.Open canOpen (zap.ErrorOutputPaths cfg)); [|reflexivity].
  destruct (zap.Level cfg); reflexivity.
Qed.

Lemma Build_fields canOpen cfg l :
  zap.Build canOpen cfg [] = Some l ->
  zap.development l = zap.Development cfg /\
  zap.errorOutput l = zapcore.openedPaths (zap.ErrorOutputPaths cfg) /\
  zap.callerSkip l = 0 /\
  exists a, zap.Level cfg = Some a.
Proof.
  unfold zap.Build.
  destruct (zap.buildEncoder cfg); [|discriminate].
  destruct (zap.Open canOpen (zap.OutputPaths cfg)); [|discriminate].
  unfold zap.Open at 1.
  destruct (forallb _ (zap.ErrorOutputPaths cfg)); [|discriminate].
  destruct (zap.Level cfg) as [a|]; [|discriminate].
  intros [= <-]. simpl. eauto.
Qed.

(** With a configuration, the call installs the facade's logger when
    [Build] succeeds and panics on the nil logger when it fails. *)
Lemma InitLoggerWithRolling_conf env cfg rolling st :
  InitLoggerWithRolling env (Some cfg) rolling st =
  if buildable env cfg
  then Returns tt (installed (facadeLogger env cfg (resolveRolling rolling)) st)
  else Panics nil_dereference.
Proof.
  unfold InitLoggerWithRolling, buildable, bind, resolveConfig, ret.
  rewrite Build_options.
  destruct (zap.Build (canOpen env) cfg []) as [l|] eqn:Hb; [|reflexivity].
  destruct (Build_fields _ _ _ Hb) as (Hd & He & Hc & _).
  cbn. unfold installed, facadeLogger, set_logger, set_getty_log. cbn.
  rewrite Hd, He, Hc. reflexivity.
Qed.

(** Without a configuration the call always returns. *)
Lemma InitLoggerWithRolling_default env st :
  InitLoggerWithRolling env None None st = Returns tt (defaultInstalled env st).
Proof. reflexivity. Qed.

(** Whenever the call returns, the active logger is the facade's logger
    over some configuration, and getty holds the same logger. *)
Lemma InitLoggerWithRolling_returns env conf rolling st st' :
  InitLoggerWithRolling env conf rolling st = Returns tt st' ->
  exists cfg,
    logger st' = Some (facadeLogger env cfg (resolveRolling rolling)) /\
    getty_log st' = logger st' /\
    buildable env cfg = true /\
    match conf with
    | Some c => cfg = c /\ levels st' = levels st
    | None => cfg = defaultConfig (length (levels st)) /\
              levels st' = levels st ++ [zapcore.DebugLevel]
    end.
Proof.
  destruct conf as [c|].
  - rewrite InitLoggerWithRolling_conf.
    destruct (buildable env c) eqn:Hb; [|discriminate].
    intros [= <-]. exists c. auto.
  - intros H. exists (defaultConfig (length (levels st))).
    revert H. unfold InitLoggerWithRolling, bind, resolveConfig, ret. cbn.
    intros [= <-]. cbn. auto.
Qed.

(** ** The enablement predicates of the four sinks *)

Ltac level_cases :=
  unfold zapcore.InfoLevel, zapcore.WarnLevel, zapcore.is_int8 in *;
  repeat match goal with
    | |- context [?a >? ?b] => destruct (Z.gtb_spec a b)
    | |- context [?a >=? ?b] => destruct (Z.geb_spec a b)
    | |- context [?a =? ?b] => destruct (Z.eqb_spec a b)
    end;
  simpl; try reflexivity; try lia.

(** The sinks of the facade's logger are the four closures, evaluated on
    the store of the state. *)
Lemma sinkEnabled_facade env cfg lr st level :
  logger st = Some (facadeLogger env cfg lr) ->
  sinkEnabled 0 st level = infoLevel cfg (levels st) level /\
  sinkEnabled 1 st level = warnLevel cfg (levels st) level /\
  sinkEnabled 2 st level = errorLevel cfg (levels st) level /\
  sinkEnabled 3 st level = consoleLevel cfg (levels st) level /\
  currentLevel st = zap.Level_ (zap.Level cfg) (levels st).
Proof.
  intros H. unfold sinkEnabled, currentLevel. rewrite H. cbn. auto.
Qed.

Lemma errorLevel_exact cfg h L level :
  zap.Level_ (zap.Level cfg) h = Some L ->
  -126 <= L ->
  errorLevel cfg h level =
  Some ((level >? zapcore.WarnLevel) && (zapcore.WarnLevel >=? L)).
Proof.
  intros HL Hlo. pose proof (Level_int8 _ _ _ HL) as Hi.
  unfold errorLevel, zapcore.LevelEnablerFunc. rewrite HL.
  rewrite sub_exact by (unfold zapcore.is_int8, zapcore.WarnLevel in *; lia).
  level_cases.
Qed.

Lemma warnLevel_exact cfg h L level :
  zap.Level_ (zap.Level cfg) h = Some L ->
  zapcore.is_int8 (level - L) ->
  warnLevel cfg h level =
  Some ((level =? zapcore.WarnLevel) && (zapcore.WarnLevel >=? L)).
Proof.
  intros HL Hd.
  unfold warnLevel, zapcore.LevelEnablerFunc. rewrite HL.
  destruct (Z.eqb_spec level zapcore.WarnLevel) as [->|]; [|reflexivity].
  rewrite sub_exact by assumption. level_cases.
Qed.

Lemma infoLevel_exact cfg h L level :
  zap.Level_ (zap.Level cfg) h = Some L ->
  zapcore.is_int8 (level - L) ->
  infoLevel cfg h level =
  Some ((level =? zapcore.InfoLevel) && (zapcore.InfoLevel >=? L)).
Proof.
  intros HL Hd.
  unfold infoLevel, zapcore.LevelEnablerFunc. rewrite HL.
  destruct (Z.eqb_spec level zapcore.InfoLevel) as [->|]; [|reflexivity].
  rewrite (sub_exact zapcore.InfoLevel zapcore.InfoLevel)
    by (unfold zapcore.is_int8, zapcore.InfoLevel; lia).
  rewrite sub_exact by (unfold zapcore.InfoLevel in *; exact Hd).
  level_cases.
Qed.

Lemma consoleLevel_exact cfg h L level :
  zap.Level_ (zap.Level cfg) h = Some L ->
  zapcore.is_int8 (level - L) ->
  consoleLevel cfg h level = Some (level >=? L).
Proof.
  intros HL Hd.
  unfold consoleLevel, zapcore.LevelEnablerFunc. rewrite HL.
  rewrite sub_exact by assumption. level_cases.
Qed.

(** Where [WarnLevel - L] does not wrap, that is for [-126 <= L] and so
    for every named level from debug to fatal, the error file sink accepts
    a record exactly when the level of the record is strictly above warn
    and warn is at or above [L]: the level of the record is not compared
    with [L].  When [L] is strictly above warn the sink accepts no record,
    error records included. *)
Lemma error_sink_predicate env conf rolling st st' st'' L level :
  InitLoggerWithRolling env conf rolling st = Returns tt st' ->
  logger st'' = logger st' ->
  currentLevel st'' = Some L ->
  -126 <= L ->
  sinkEnabled 2 st'' level =
    Some ((level >? zapcore.WarnLevel) && (zapcore.WarnLevel >=? L)) /\
  (zapcore.WarnLevel < L ->
   sinkEnabled 2 st'' level = Some false /\
   sinkEnabled 2 st'' zapcore.ErrorLevel = Some false).
Proof.
  intros Hinit Hlog HL Hlo.
  destruct (InitLoggerWithRolling_returns _ _ _ _ _ Hinit) as (cfg & Hl & _).
  rewrite <- Hlog in Hl.
  destruct (sinkEnabled_facade _ _ _ _ level Hl) as (_ & _ & He & _ & Hc).
  destruct (sinkEnabled_facade _ _ _ _ zapcore.ErrorLevel Hl) as (_ & _ & He' & _).
  rewrite Hc in HL.
  rewrite He, He', !(errorLevel_exact _ _ _ _ HL Hlo).
  split; [reflexivity|].
  intros Hgt. split; f_equal; level_cases.
Qed.

(** The test [WarnLevel - L > -1] of the warn and error sinks once the
    difference has wrapped. *)
Lemma warn_gate_wraps L :
  zapcore.is_int8 L -> L < -126 -> (zapcore.sub zapcore.WarnLevel L >? -1) = false.
Proof.
  unfold zapcore.is_int8, zapcore.sub, zapcore.wrap8, zapcore.WarnLevel.
  intros HL Hlo.
  assert (HL' : L = -128 \/ L = -127) by lia.
  destruct HL' as [-> | ->]; reflexivity.
Qed.

(** C1 fails on the code at the two lowest levels.  The error file sink
    tests "warn is at or above [L]" as [WarnLevel - L > -1] in [int8]
    arithmetic.  For [L] below [-126] the difference wraps and is negative:
    the sink then rejects every record above warn, error records included,
    although warn is at or above [L]. *)
Theorem error_sink_wraps_at_lowest_levels env conf rolling st st' st'' L level :
  InitLoggerWithRolling env conf rolling st = Returns tt st' ->
  logger st'' = logger st' ->
  currentLevel st'' = Some L ->
  L < -126 ->
  level > zapcore.WarnLevel ->
  zapcore.WarnLevel >= L /\
  sinkEnabled 2 st'' level = Some false /\
  sinkEnabled 2 st'' level <>
    Some ((level >? zapcore.WarnLevel) && (zapcore.WarnLevel >=? L)).
Proof.
  intros Hinit Hlog HL Hlo Hlevel.
  destruct (InitLoggerWithRolling_returns _ _ _ _ _ Hinit) as (cfg & Hl & _).
  rewrite <- Hlog in Hl.
  destruct (sinkEnabled_facade _ _ _ _ level Hl) as (_ & _ & He & _ & Hc).
  rewrite Hc in HL. pose proof (Level_int8 _ _ _ HL) as HL8.
  assert (Hrej : sinkEnabled 2 st'' level = Some false).
  { rewrite He. unfold errorLevel, zapcore.LevelEnablerFunc. rewrite HL.
    rewrite (warn_gate_wraps L HL8 Hlo).
    destruct (level >? zapcore.WarnLevel); reflexivity. }
  split; [unfold zapcore.WarnLevel; lia|]. split; [exact Hrej|].
  rewrite Hrej.
  replace (level >? zapcore.WarnLevel) with true
    by (symmetry; apply Z.gtb_lt; lia).
  replace (zapcore.WarnLevel >=? L) with true
    by (symmetry; apply Z.geb_le; unfold zapcore.WarnLevel; lia).
  discriminate.
Qed.

(** The failing input of C1: a logger built on a configuration whose level
    holds [-128], and an error record. *)
Lemma error_sink_wraps_at_lowest_levels_witness :
  InitLoggerWithRolling sampleEnv (Some (jsonConfigAt 0)) None (stateWithLevel (-128)) =
    Returns tt lowestLevelState /\
  currentLevel lowestLevelState = Some (-128) /\
  zapcore.WarnLevel >= -128 /\
  sinkEnabled 2 lowestLevelState zapcore.ErrorLevel = Some false /\
  sinkEnabled 2 lowestLevelState zapcore.ErrorLevel <>
    Some ((zapcore.ErrorLevel >? zapcore.WarnLevel) && (zapcore.WarnLevel >=? -128)).
Proof.
  split; [reflexivity|]. split; [reflexivity|].
  apply (error_sink_wraps_at_lowest_levels sampleEnv (Some (jsonConfigAt 0)) None
           (stateWithLevel (-128)) lowestLevelState lowestLevelState
           (-128) zapcore.ErrorLevel eq_refl eq_refl eq_refl);
    [lia | unfold zapcore.ErrorLevel, zapcore.WarnLevel; lia].
Defined.

(** Where no difference wraps, that is for a record whose level minus [L]
    fits an [int8] (as it does for all named levels), the info file sink
    accepts the record exactly when its level is info and info is at or
    above [L]; the warn file sink exactly when its level is warn and warn
    is at or above [L]; the console sink exactly when its level is at or
    above [L]. *)
Lemma info_warn_console_predicates env conf rolling st st' st'' L level :
  InitLoggerWithRolling env conf rolling st = Returns tt st' ->
  logger st'' = logger st' ->
  currentLevel st'' = Some L ->
  zapcore.is_int8 (level - L) ->
  sinkEnabled 0 st'' level =
    Some ((level =? zapcore.InfoLevel) && (zapcore.InfoLevel >=? L)) /\
  sinkEnabled 1 st'' level =
    Some ((level =? zapcore.WarnLevel) && (zapcore.WarnLevel >=? L)) /\
  sinkEnabled 3 st'' level = Some (level >=? L).
Proof.
  intros Hinit Hlog HL Hd.
  destruct (InitLoggerWithRolling_returns _ _ _ _ _ Hinit) as (cfg & Hl & _).
  rewrite <- Hlog in Hl.
  destruct (sinkEnabled_facade _ _ _ _ level Hl) as (Hi & Hw & _ & Hco & Hc).
  rewrite Hc in HL. rewrite Hi, Hw, Hco.
  rewrite (infoLevel_exact _ _ _ _ HL Hd), (warnLevel_exact _ _ _ _ HL Hd),
    (consoleLevel_exact _ _ _ _ HL Hd).
  auto.
Qed.

(** C6 fails on the code at the lowest level.  The three predicates test
    "at or above [L]" as an [int8] difference compared with [-1].  When the
    level of the logger holds [-128] the difference wraps for every record
    at info or above: the info file sink rejects info records, the warn
    file sink rejects warn records, and the console sink rejects every
    record from info up, although each of these levels is at or above
    [L]. *)
Theorem sinks_wrap_at_lowest_level env conf rolling st st' st'' level :
  InitLoggerWithRolling env conf rolling st = Returns tt st' ->
  logger st'' = logger st' ->
  currentLevel st'' = Some (-128) ->
  0 <= level <= 127 ->
  sinkEnabled 0 st'' zapcore.InfoLevel = Some false /\
  sinkEnabled 1 st'' zapcore.WarnLevel = Some false /\
  sinkEnabled 3 st'' level = Some false /\
  (zapcore.InfoLevel >= -128 /\ zapcore.WarnLevel >= -128 /\ level >= -128).
Proof.
  intros Hinit Hlog HL Hlevel.
  destruct (InitLoggerWithRolling_returns _ _ _ _ _ Hinit) as (cfg & Hl & _).
  rewrite <- Hlog in Hl.
  destruct (sinkEnabled_facade _ _ _ _ level Hl) as (_ & _ & _ & Hco & Hc).
  destruct (sinkEnabled_facade _ _ _ _ zapcore.InfoLevel Hl) as (Hi & _).
  destruct (sinkEnabled_facade _ _ _ _ zapcore.WarnLevel Hl) as (_ & Hw & _).
  rewrite Hc in HL. rewrite Hi, Hw, Hco.
  unfold infoLevel, warnLevel, consoleLevel, zapcore.LevelEnablerFunc.
  rewrite HL.
  split; [reflexivity|]. split; [reflexivity|]. split.
  - f_equal. rewrite Z.gtb_ltb. apply Z.ltb_ge.
    unfold zapcore.sub, zapcore.wrap8.
    replace (level - -128 + 128) with (level + 1 * 256) by lia.
    rewrite Z.mod_add by lia. rewrite Z.mod_small by lia. lia.
  - unfold zapcore.InfoLevel, zapcore.WarnLevel. lia.
Qed.

(** The failing input of C6: a logger built on a configuration whose level
    holds [-128], with an info, a warn and a fatal record. *)
Lemma sinks_wrap_at_lowest_level_witness :
  sinkEnabled 0 lowestLevelState zapcore.InfoLevel = Some false /\
  sinkEnabled 1 lowestLevelState zapcore.WarnLevel = Some false /\
  sinkEnabled 3 lowestLevelState zapcore.FatalLevel = Some false /\
  (zapcore.InfoLevel >= -128 /\ zapcore.WarnLevel >= -128 /\
   zapcore.FatalLevel >= -128).
Proof.
  apply (sinks_wrap_at_lowest_level sampleEnv (Some (jsonConfigAt 0)) None
           (stateWithLevel (-128)) lowestLevelState lowestLevelState
           zapcore.FatalLevel eq_refl eq_refl eq_refl).
  unfold zapcore.FatalLevel. lia.
Defined.

(** ** Log calls on the facade's logger *)

Lemma Level_new_cell (h : Heap) l :
  zap.Level_ (Some (length h)) (h ++ [l]) = Some (zapcore.wrap8 l).
Proof.
  unfold zap.Level_. rewrite lookup_app_r by lia.
  rewrite Nat.sub_diag. reflexivity.
Qed.

Lemma Level_is_Some a (h : Heap) :
  is_Some (zap.Level_ (Some a) h) <-> (a < length h)%nat.
Proof.
  unfold zap.Level_. rewrite fmap_is_Some. apply lookup_lt_is_Some.
Qed.

(** Once the level of the configuration has a cell, every core of the tee
    answers, so a log call writes and returns, or exits at fatal. *)
Lemma Check_zapCores env cfg lr h lvl L :
  zap.Level_ (zap.Level cfg) h = Some L ->
  exists ws, zapcore.Check (zapcore.multiCore (zapCores env cfg lr)) h lvl = Some ws.
Proof.
  intros HL. cbn.
  unfold infoLevel, warnLevel, errorLevel, consoleLevel, zapcore.LevelEnablerFunc.
  rewrite HL.
  destruct (lvl =? zapcore.InfoLevel), (lvl =? zapcore.WarnLevel),
    (lvl >? zapcore.WarnLevel),
    (zapcore.sub (zapcore.sub lvl zapcore.InfoLevel) L >? -1),
    (zapcore.sub zapcore.WarnLevel L >? -1), (zapcore.sub lvl L >? -1);
    eexists; reflexivity.
Qed.

Lemma Log_facade env cfg lr st m msg :
  logger st = Some (facadeLogger env cfg lr) ->
  is_Some (currentLevel st) ->
  exists st',
    Log m msg st = match m with
                   | Fatal => Exits 1 st'
                   | _ => Returns tt st'
                   end /\
    logger st' = logger st.
Proof.
  intros Hl [L HL].
  unfold currentLevel in HL. rewrite Hl in HL. simpl in HL.
  unfold Log. rewrite Hl. simpl. unfold SugaredLogger_log.
  destruct (Check_zapCores env cfg lr (levels st) (levelOf m) L HL) as [ws Hws].
  cbn [zap.core]. rewrite Hws.
  destruct m; cbn; eexists; (split; [reflexivity|]); cbn; congruence.
Qed.

Lemma defaultInstalled_level env st :
  currentLevel (defaultInstalled env st) = Some zapcore.DebugLevel.
Proof.
  unfold currentLevel, defaultInstalled, installed, facadeLogger. cbn [logger levels].
  cbn [defaultConfig zap.Level set_levels levels].
  apply Level_new_cell.
Qed.

(** ** [InitLog] *)

Lemma default_then_ret env (e : option error) st :
  (InitLoggerWithRolling env None None ;; ret e) st =
  Returns e (defaultInstalled env st).
Proof. reflexivity. Qed.

(** Every path of [InitLog] that returns an error leaves the state of
    [InitLoggerWithRolling(nil, nil)]. *)
Lemma InitLog_error_state env p st e st' :
  InitLog env p st = Returns (Some e) st' -> st' = defaultInstalled env st.
Proof.
  unfold InitLog.
  destruct (String.eqb p "").
  { rewrite default_then_ret. intros [= _ <-]. reflexivity. }
  destruct (negb (String.eqb (path.Ext p) ".yml")).
  { rewrite default_then_ret. intros [= _ <-]. reflexivity. }
  destruct (ReadFile env p) as [content|err].
  2:{ rewrite default_then_ret. intros [= _ <-]. reflexivity. }
  destruct (Unmarshal env content) as [decoded|err].
  2:{ rewrite default_then_ret. intros [= _ <-]. reflexivity. }
  unfold bind at 1.
  destruct (storeDecoded decoded st) as [w st1| |]; try discriminate.
  unfold bind at 1.
  destruct (InitLoggerWithRolling _ _ _ st1) as [[] st2| |]; discriminate.
Qed.

(** C3.  For the empty path [InitLog] returns the error "log configure
    file name is nil" and leaves the default logger installed: the active
    logger is not nil, and a log call that follows does not panic -- it
    returns, and at fatal it exits the process with status 1. *)
Theorem InitLog_empty_path env st :
  InitLog env "" st =
    Returns (Some "log configure file name is nil") (defaultInstalled env st) /\
  logger (defaultInstalled env st) <> None /\
  forall m msg,
    noPanic (Log m msg (defaultInstalled env st)) /\
    exists st',
      Log m msg (defaultInstalled env st) =
      match m with
      | Fatal => Exits 1 st'
      | _ => Returns tt st'
      end.
Proof.
  split; [reflexivity|]. split; [discriminate|].
  intros m msg.
  destruct (Log_facade env (defaultConfig (length (levels st))) (resolveRolling None)
              (defaultInstalled env st) m msg eq_refl) as (st' & H & _).
  { rewrite defaultInstalled_level. eauto. }
  split; [|eauto].
  rewrite H. destruct m; exact I.
Qed.

Lemma InitLog_empty_path_witness :
  noPanic (Log Error "boom" (defaultInstalled sampleEnv emptyState)).
Proof.
  apply (proj1 (proj2 (proj2 (InitLog_empty_path sampleEnv emptyState)) Error "boom")).
Defined.

(** C8.  For a path that is not empty and whose extension is not [.yml],
    [InitLog] returns the error whose message is "log configure file name{"
    followed by the path and "} suffix must be .yml", and leaves the
    default logger installed, as [InitLoggerWithRolling(nil, nil)] does. *)
Theorem InitLog_bad_extension env p st :
  p <> "" ->
  path.Ext p <> ".yml" ->
  InitLog env p st =
    Returns (Some ("log configure file name{" +:+ p +:+ "} suffix must be .yml"))
      (defaultInstalled env st) /\
  InitLoggerWithRolling env None None st = Returns tt (defaultInstalled env st) /\
  logger (defaultInstalled env st) =
    Some (facadeLogger env (defaultConfig (length (levels st))) documentedRolling).
Proof.
  intros Hp Hext.
  split; [|split; reflexivity].
  unfold InitLog.
  apply String.eqb_neq in Hp. rewrite Hp.
  apply String.eqb_neq in Hext. rewrite Hext. cbn [negb].
  apply default_then_ret.
Qed.

Lemma InitLog_bad_extension_witness :
  InitLog sampleEnv "./log.xml" emptyState =
    Returns (Some "log configure file name{./log.xml} suffix must be .yml")
      (defaultInstalled sampleEnv emptyState).
Proof.
  apply (proj1 (InitLog_bad_extension sampleEnv "./log.xml" emptyState
                  ltac:(discriminate) ltac:(discriminate))).
Defined.

(** The success path of [InitLog] up to the call of
    [InitLoggerWithRolling]. *)
Lemma storeDecoded_eq d st :
  storeDecoded d st =
  Returns (decodedWrapper d (length (levels st)))
    (match yaml.level d with
     | Some l => set_levels (levels st ++ [l]) st
     | None => st
     end).
Proof.
  unfold storeDecoded, decodedWrapper, bind, ret, NewAtomicLevelAt.
  destruct (yaml.level d); reflexivity.
Qed.

(** ** [SetLoggerLevel] *)

Lemma Set_named s l : zapcore.Set_ s = Some l -> -1 <= l <= 5.
Proof.
  assert (H : forall t, zapcore.unmarshalText t = Some l -> -1 <= l <= 5).
  { intros t. unfold zapcore.unmarshalText.
    repeat match goal with
           | |- context [if ?b then _ else _] => destruct b
           end; intros [= <-]; cbv; split; discriminate. }
  unfold zapcore.Set_.
  destruct (zapcore.unmarshalText s) eqn:E.
  - intros [= <-]. eauto.
  - eauto.
Qed.

Lemma SetLoggerLevel_Dubbo inner a s st :
  logger st = Some (DubboLogger inner (Some a)) ->
  (a < length (levels st))%nat ->
  SetLoggerLevel s st =
  Returns true
    (match zapcore.Set_ s with
     | Some l => set_levels (<[a := l]> (levels st)) st
     | None => st
     end).
Proof.
  intros Hl Ha. unfold SetLoggerLevel. rewrite Hl. cbn.
  unfold bind, DubboLogger_SetLoggerLevel, zap.SetLevel, ret.
  destruct (zapcore.Set_ s); [|reflexivity].
  apply Nat.ltb_lt in Ha. rewrite Ha. reflexivity.
Qed.

(** The stores of a client's method keep every cell. *)
Lemma fold_store_length ws (h : Heap) :
  length (fold_left store ws h) = length h.
Proof.
  revert h. induction ws as [|w ws IH]; intros h; simpl; [reflexivity|].
  rewrite IH. unfold store. apply length_insert.
Qed.

(** A method of a client's implementation that returns leaves both logger
    slots alone, only adds entries, and keeps every level cell. *)
Lemma runMethod_state method st st' :
  runMethod method st = Returns tt st' ->
  logger st' = logger st /\ getty_log st' = getty_log st /\
  (exists es, written st' = written st ++ es) /\
  (length (levels st) <= length (levels st'))%nat.
Proof.
  unfold runMethod. destruct (ending (method (levels st))); try discriminate.
  intros [= <-]. cbn. split; [reflexivity|]. split; [reflexivity|].
  split; [eauto|]. rewrite length_app, fold_store_length. lia.
Qed.




(** On a [DubboLogger] with a created level, the call returns true and
    touches nothing but the level store. *)
Lemma SetLoggerLevel_created inner lvl s st :
  logger st = Some (DubboLogger inner lvl) ->
  is_Some (zap.Level_ lvl (levels st)) ->
  exists st', SetLoggerLevel s st = Returns true st' /\
              logger st' = logger st /\ getty_log st' = getty_log st /\
              written st' = written st.
Proof.
  intros Hl Hc.
  destruct lvl as [a|]; [|destruct Hc; discriminate].
  apply Level_is_Some in Hc.
  rewrite (SetLoggerLevel_Dubbo inner a s st Hl Hc).
  eexists. split; [reflexivity|].
  destruct (zapcore.Set_ s); cbn; auto.
Qed.




(** zap reads a name as it is and then in lower case, rune by rune: the
    lower case of U+0130 is [i], so the name that starts with it is info. *)
Example Set_lowers_by_rune :
  zapcore.Set_ "Warn" = Some zapcore.WarnLevel /\
  zapcore.Set_ dotted_INFO = Some zapcore.InfoLevel /\
  zapcore.Set_ "loud" = None /\
  (SetLoggerLevel "warn" ;; SetLoggerLevel dotted_INFO)
    (defaultInstalled sampleEnv emptyState) =
  SetLoggerLevel "info" (defaultInstalled sampleEnv emptyState).
Proof. repeat split. Qed.

(** A name that parses is stored in the dynamic level. *)
Lemma SetLoggerLevel_sets_level inner a s l st :
  logger st = Some (DubboLogger inner (Some a)) ->
  (a < length (levels st))%nat ->
  zapcore.Set_ s = Some l ->
  exists st', SetLoggerLevel s st = Returns true st' /\ currentLevel st' = Some l.
Proof.
  intros Hl Ha Hs. rewrite (SetLoggerLevel_Dubbo inner a s st Hl Ha), Hs.
  eexists. split; [reflexivity|].
  unfold currentLevel. cbn. rewrite Hl. unfold zap.Level_.
  rewrite list_lookup_insert_eq by exact Ha. cbn.
  rewrite wrap8_id; [reflexivity|].
  pose proof (Set_named s l Hs). unfold zapcore.is_int8. lia.
Qed.

(** The test [TestSetLevel] of the repository: true, then false once the
    bare sugared logger is installed. *)
Example TestSetLevel_passes :
  exists st, TestSetLevel sampleEnv emptyState = Returns (true, false) st.
Proof. eexists. reflexivity. Qed.

(** ** [SetLogger] and [GetLogger] *)

(** C9.  [SetLogger(x)] installs [x] whatever it is: right after it
    [GetLogger()] returns [x], getty's slot holds the same [x], and nothing
    else of the state has changed.  [GetLogger] returns the active logger
    and leaves the state as it was. *)
Theorem SetLogger_then_GetLogger x st :
  SetLogger (Some x) st = Returns tt (installed x st) /\
  GetLogger (installed x st) = Returns (Some x) (installed x st) /\
  getty_log (installed x st) = Some x /\
  levels (installed x st) = levels st /\
  written (installed x st) = written st /\
  (SetLogger (Some x) ;; GetLogger) st = Returns (Some x) (installed x st) /\
  GetLogger st = Returns (logger st) st.
Proof. repeat split. Qed.

(** ** The default logger *)

(** C7.  When the rolling configuration is absent, the resolved
    configuration is: path "./logs", file names "dubbo-error.log",
    "dubbo-warn.log", "dubbo-info.log", size 30, backups 1, age 3, no
    compression; and the three file sinks of the installed logger are made
    from exactly these values. *)
Theorem rolling_absent_defaults env conf st st' :
  InitLoggerWithRolling env conf None st = Returns tt st' ->
  resolveRolling None =
    {| LogFilePath := "./logs";
       ErrorFilename := "dubbo-error.log";
       WarnFilename := "dubbo-warn.log";
       InfoFilename := "dubbo-info.log";
       MaxSize := 30;
       MaxBackups := 1;
       MaxAge := 3;
       Compress := false |} /\
  fileSinks (logger st') =
    [ defaultFile env "dubbo-info.log";
      defaultFile env "dubbo-warn.log";
      defaultFile env "dubbo-error.log" ].
Proof.
  intros H. split; [reflexivity|].
  destruct (InitLoggerWithRolling_returns _ _ _ _ _ H) as (cfg & -> & _).
  reflexivity.
Qed.

Lemma rolling_absent_defaults_witness :
  fileSinks (logger (installed
                       (facadeLogger sampleEnv (jsonConfigAt 0) (resolveRolling None))
                       (stateWithLevel zapcore.InfoLevel))) =
    [ defaultFile sampleEnv "dubbo-info.log";
      defaultFile sampleEnv "dubbo-warn.log";
      defaultFile sampleEnv "dubbo-error.log" ].
Proof.
  apply (proj2 (rolling_absent_defaults sampleEnv (Some (jsonConfigAt 0))
                  (stateWithLevel zapcore.InfoLevel) _ eq_refl)).
Defined.

(** C4 (amended).  The logger installed when the configuration is absent,
    hence on every path of [InitLog] that returns an error, has the same
    four sinks as any other: the info, warn and error files under "./logs"
    with the default rolling limits, and standard output; its minimum
    level is debug. *)
Theorem default_logger_sinks env st :
  InitLoggerWithRolling env None None st = Returns tt (defaultInstalled env st) /\
  writersOf (logger (defaultInstalled env st)) =
    [ zapcore.lumberjackWriter (defaultFile env "dubbo-info.log");
      zapcore.lumberjackWriter (defaultFile env "dubbo-warn.log");
      zapcore.lumberjackWriter (defaultFile env "dubbo-error.log");
      zapcore.os_Stdout ] /\
  currentLevel (defaultInstalled env st) = Some zapcore.DebugLevel /\
  forall p e st',
    InitLog env p st = Returns (Some e) st' -> st' = defaultInstalled env st.
Proof.
  split; [reflexivity|]. split; [reflexivity|].
  split; [apply defaultInstalled_level|].
  intros p e st'. apply InitLog_error_state.
Qed.

Lemma default_logger_sinks_witness :
  stateAfter (InitLog sampleEnv "./missing.yml") emptyState =
  defaultInstalled sampleEnv emptyState.
Proof.
  apply (proj2 (proj2 (proj2 (default_logger_sinks sampleEnv emptyState)))
           "./missing.yml"
           "ioutil.ReadFile(file:./missing.yml) = error:open ./missing.yml: no such file or directory").
  reflexivity.
Defined.

(** C4 as stated fails: the logger that [InitLog("")] leaves has file
    sinks, and an info record logged through it is handed to the file
    "./logs/dubbo-info.log" as well as to standard output. *)
Lemma default_logger_has_file_sinks :
  InitLog sampleEnv "" emptyState =
    Returns (Some "log configure file name is nil")
      (defaultInstalled sampleEnv emptyState) /\
  fileSinks (logger (defaultInstalled sampleEnv emptyState)) <> [] /\
  length (fileSinks (logger (defaultInstalled sampleEnv emptyState))) = 3%nat /\
  written (stateAfter (Log Info "hello") (defaultInstalled sampleEnv emptyState)) =
    [ (zapcore.lumberjackWriter (defaultFile sampleEnv "dubbo-info.log"),
       zapcore.InfoLevel, "hello");
      (zapcore.os_Stdout, zapcore.InfoLevel, "hello") ].
Proof. repeat split. discriminate. Qed.

(** ** When [Build] fails *)

Lemma InitLoggerWithRolling_build_error env cfg rolling st :
  buildable env cfg = false ->
  InitLoggerWithRolling env (Some cfg) rolling st = Panics nil_dereference.
Proof. intros H. rewrite InitLoggerWithRolling_conf, H. reflexivity. Qed.

(** C5 fails on the code.  On the zero configuration [zap.Config{}]
    (no encoding, no level) [Build] returns a nil logger and an error; the
    error is dropped, [Sugar] is called on the nil logger, and
    [InitLoggerWithRolling] panics without installing anything. *)
Theorem InitLoggerWithRolling_zero_config_panics env rolling st :
  InitLoggerWithRolling env (Some zap.Config_zero) rolling st =
  Panics nil_dereference.
Proof. apply InitLoggerWithRolling_build_error. reflexivity. Qed.

(** [Build] fails as well on a configuration that names a time key and
    has no time encoder, whatever else it holds: the call panics. *)
Lemma InitLoggerWithRolling_missing_time_encoder env cfg rolling st :
  zapcore.TimeKey (zap.EncoderConfig_ cfg) <> "" ->
  zapcore.EncodeTime (zap.EncoderConfig_ cfg) = None ->
  buildable env cfg = false /\
  InitLoggerWithRolling env (Some cfg) rolling st = Panics nil_dereference.
Proof.
  intros Hkey Htime.
  assert (Hb : buildable env cfg = false).
  { unfold buildable, zap.Build, zap.buildEncoder, zap.newEncoder.
    apply String.eqb_neq in Hkey. rewrite Hkey, Htime. reflexivity. }
  split; [exact Hb|]. apply InitLoggerWithRolling_build_error. exact Hb.
Qed.

(** The same through [InitLog]: a readable [.yml] file with an empty
    document parses without error, and [InitLog] panics. *)
Lemma InitLog_empty_document_panics :
  InitLog sampleEnv "./empty.yml" emptyState = Panics nil_dereference.
Proof. reflexivity. Qed.

(** ** The capability of the installed logger *)

Lemma LoggerImpl_log_logger :
  forall l m msg st st',
    LoggerImpl_log l m msg st = Returns tt st' -> logger st' = logger st.
Proof.
  fix IH 1. intros [base|[inner|] lvl|id leveled method] m msg st st'; simpl.
  - unfold SugaredLogger_log.
    destruct (zapcore.Check _ _ _); [|discriminate].
    destruct (_ =? _); [discriminate|]. intros [= <-]. reflexivity.
  - apply IH.
  - discriminate.
  - intros H. apply (runMethod_state _ _ _ H).
Qed.

Lemma SetLoggerLevel_logger s st b st' :
  SetLoggerLevel s st = Returns b st' -> logger st' = logger st.
Proof.
  unfold SetLoggerLevel.
  destruct (logger st) as [[base|inner lvl|id leveled [method|]]|] eqn:Hl; cbn.
  - intros [= _ <-]. auto.
  - unfold bind, DubboLogger_SetLoggerLevel, ret.
    destruct (zapcore.Set_ s).
    + destruct (zap.SetLevel _ _ _); [|discriminate]. intros [= _ <-]. auto.
    + intros [= _ <-]. auto.
  - unfold bind, ret.
    destruct (runMethod (method s) st) as [[] st1| |] eqn:Hm; try discriminate.
    intros [= _ <-]. rewrite <- Hl. apply (runMethod_state _ _ _ Hm).
  - intros [= _ <-]. auto.
  - intros [= _ <-]. auto.
Qed.

(** What [InitLog] does on each of its paths. *)
Lemma InitLog_cases env p st :
  (exists e, InitLog env p st = Returns (Some e) (defaultInstalled env st)) \/
  (exists content decoded,
      ReadFile env p = io_ok content /\
      Unmarshal env content = io_ok decoded /\
      let w := decodedWrapper decoded (length (levels st)) in
      match yaml.level decoded with
      | Some l =>
          if buildable env (LogConfig w)
          then InitLog env p st =
               Returns None
                 (installed (facadeLogger env (LogConfig w) (Rolling w))
                    (set_levels (levels st ++ [l]) st))
          else InitLog env p st = Panics nil_dereference
      | None =>
          buildable env (LogConfig w) = false /\
          InitLog env p st = Panics nil_dereference
      end).
Proof.
  unfold InitLog.
  destruct (String.eqb p "").
  { left. eexists. apply default_then_ret. }
  destruct (negb (String.eqb (path.Ext p) ".yml")).
  { left. eexists. apply default_then_ret. }
  destruct (ReadFile env p) as [content|err] eqn:Hread.
  2:{ left. eexists. apply default_then_ret. }
  destruct (Unmarshal env content) as [decoded|err] eqn:Hyaml.
  2:{ left. eexists. apply default_then_ret. }
  right. exists content, decoded. split; [reflexivity|]. split; [exact Hyaml|].
  cbv zeta. unfold bind at 1 3 5. rewrite storeDecoded_eq.
  unfold bind, ret. rewrite !InitLoggerWithRolling_conf.
  destruct (yaml.level decoded) as [l|] eqn:Hlv.
  - destruct (buildable env _); reflexivity.
  - assert (Hb : buildable env (LogConfig (decodedWrapper decoded (length (levels st))))
                 = false).
    { unfold buildable, zap.Build, decodedWrapper. cbn. rewrite Hlv.
      destruct (zap.buildEncoder _); [|reflexivity].
      destruct (zap.Open _ _); [|reflexivity].
      destruct (zap.Open _ _); reflexivity. }
    rewrite Hb. auto.
Qed.

(** A facade logger over a new cell has the method, a created level, and
    answers true to every [SetLoggerLevel]. *)
Lemma facadeLogger_capability env cfg lr (h : Heap) l st :
  zap.Level cfg = Some (length h) ->
  levels st = h ++ [l] ->
  let st' := installed (facadeLogger env cfg lr) st in
  (exists inner lvl, logger st' = Some (DubboLogger inner lvl)) /\
  isOpsLogger (logger st') = true /\
  levelCreated st' /\
  forall s, exists st'', SetLoggerLevel s st' = Returns true st''.
Proof.
  intros Hc Hh st'.
  assert (Ha : (length h < length (levels st'))%nat).
  { subst st'. cbn. rewrite Hh, length_app. cbn. lia. }
  split; [unfold facadeLogger; cbn; eauto|].
  split; [reflexivity|].
  split.
  - unfold levelCreated. subst st'. cbn [logger installed facadeLogger].
    rewrite Hc. apply Level_is_Some. exact Ha.
  - intros s. eexists. eapply (SetLoggerLevel_Dubbo _ (length h)); [|exact Ha].
    subst st'. unfold facadeLogger. cbn. rewrite Hc. reflexivity.
Qed.

(** C10.  Whenever [InitLog] returns, with an error or with nil, the
    active logger is a [DubboLogger], it has the [SetLoggerLevel] method,
    and a [SetLoggerLevel] call that follows returns true.  ([InitLog] does
    not return only when the file was read and parsed and [Build] then
    failed: it panics, see C5.)  Among the calls of the package, only
    [SetLogger] can change the active logger to one without the method. *)
Theorem InitLog_installs_OpsLogger env :
  (forall p st,
      match InitLog env p st with
      | Returns _ st' =>
          (exists inner lvl, logger st' = Some (DubboLogger inner lvl)) /\
          isOpsLogger (logger st') = true /\
          levelCreated st' /\
          forall s, exists st'', SetLoggerLevel s st' = Returns true st''
      | Panics _ =>
          exists content decoded,
            ReadFile env p = io_ok content /\
            Unmarshal env content = io_ok decoded /\
            buildable env
              (LogConfig (decodedWrapper decoded (length (levels st)))) = false
      | Exits _ _ => False
      end) /\
  (forall c st st',
      exec env c st = Returns tt st' ->
      isOpsLogger (logger st') = false ->
      logger st' = logger st \/ exists log, c = CallSetLogger log).
Proof.
  split.
  - intros p st.
    destruct (InitLog_cases env p st) as [[e ->]|(content & decoded & Hr & Hy & H)].
    + apply (facadeLogger_capability env _ _ (levels st) zapcore.DebugLevel);
        reflexivity.
    + cbv zeta in H. destruct (yaml.level decoded) as [l|] eqn:Hlv.
      * destruct (buildable env _) eqn:Hb; rewrite H.
        -- apply (facadeLogger_capability env _ _ (levels st) l);
             [cbn; rewrite Hlv|]; reflexivity.
        -- eauto.
      * destruct H as [Hb ->]. eauto.
  - intros c st st' Hc Hno. destruct c as [p|conf rolling|conf|log| |s|m msg]; cbn in Hc.
    + exfalso. unfold bind, ret in Hc.
      destruct (InitLog_cases env p st) as [[e He]|(content & decoded & _ & _ & H)].
      * rewrite He in Hc. injection Hc as <-. discriminate.
      * cbv zeta in H. destruct (yaml.level decoded).
        -- destruct (buildable env _); rewrite H in Hc; [|discriminate].
           injection Hc as <-. discriminate.
        -- destruct H as [_ H]. rewrite H in Hc. discriminate.
    + exfalso.
      destruct (InitLoggerWithRolling_returns _ _ _ _ _ Hc) as (cfg & Hl & _).
      rewrite Hl in Hno. discriminate.
    + exfalso. unfold InitLogger in Hc.
      destruct (InitLoggerWithRolling_returns _ _ _ _ _ Hc) as (cfg & Hl & _).
      rewrite Hl in Hno. discriminate.
    + right. eauto.
    + left. unfold bind, GetLogger, ret in Hc. injection Hc as <-. reflexivity.
    + left. unfold bind, ret in Hc.
      destruct (SetLoggerLevel s st) as [b st1| |] eqn:Hs; try discriminate.
      injection Hc as <-. eapply SetLoggerLevel_logger; eauto.
    + left. unfold Log in Hc. destruct (logger st) as [l|] eqn:Hl; [|discriminate].
      rewrite (LoggerImpl_log_logger _ _ _ _ _ Hc). auto.
Qed.

Lemma InitLog_installs_OpsLogger_witness :
  (exists st', SetLoggerLevel "error" (stateAfter (InitLog sampleEnv "./log.yml") emptyState)
               = Returns true st') /\
  (logger (stateAfter (SetLogger None) (defaultInstalled sampleEnv emptyState)) =
     logger (defaultInstalled sampleEnv emptyState) \/
   exists log, CallSetLogger None = CallSetLogger log).
Proof.
  split.
  - apply (proj1 (InitLog_installs_OpsLogger sampleEnv) "./log.yml" emptyState).
  - apply (proj2 (InitLog_installs_OpsLogger sampleEnv) (CallSetLogger None)
             (defaultInstalled sampleEnv emptyState)); reflexivity.
Defined.

(** ** Invariants of the reachable states *)

(** A method call that returns leaves both logger slots alone, only adds
    entries, and keeps every level cell. *)
Lemma LoggerImpl_log_state :
  forall l m msg st st',
    LoggerImpl_log l m msg st = Returns tt st' ->
    logger st' = logger st /\ getty_log st' = getty_log st /\
    (exists es, written st' = written st ++ es) /\
    (length (levels st) <= length (levels st'))%nat.
Proof.
  fix IH 1. intros [base|[inner|] lvl|id leveled method] m msg st st'; simpl.
  - unfold SugaredLogger_log.
    destruct (zapcore.Check _ _ _); [|discriminate].
    destruct (_ =? _); [discriminate|]. intros [= <-]. cbn. eauto 6.
  - apply IH.
  - discriminate.
  - apply runMethod_state.
Qed.

Lemma SetLoggerLevel_state s st b st' :
  SetLoggerLevel s st = Returns b st' ->
  logger st' = logger st /\ getty_log st' = getty_log st /\
  (exists es, written st' = written st ++ es) /\
  (length (levels st) <= length (levels st'))%nat.
Proof.
  assert (Hsame : logger st = logger st /\ getty_log st = getty_log st /\
                  (exists es, written st = written st ++ es) /\
                  (length (levels st) <= length (levels st))%nat).
  { repeat split; [|lia]. exists []. rewrite app_nil_r. reflexivity. }
  unfold SetLoggerLevel.
  destruct (logger st) as [[base|inner lvl|id leveled [method|]]|] eqn:Hl; cbn;
    try (intros [= _ <-]; rewrite Hl; exact Hsame).
  - unfold bind, DubboLogger_SetLoggerLevel, ret, zap.SetLevel.
    destruct (zapcore.Set_ s); [|intros [= _ <-]; rewrite Hl; exact Hsame].
    destruct lvl as [a|]; [|discriminate].
    destruct (a <? _)%nat; [|discriminate].
    intros [= _ <-]. cbn. rewrite length_insert.
    split; [exact Hl|]. split; [reflexivity|]. split; [|lia].
    exists []. rewrite app_nil_r. reflexivity.
  - unfold bind, ret.
    destruct (runMethod (method s) st) as [[] st1| |] eqn:Hm; try discriminate.
    intros [= _ <-]. rewrite <- Hl. apply (runMethod_state _ _ _ Hm).
Qed.

(** A created level stays created while no cell is lost. *)
Lemma levelZeroOrCreated_grows st st' :
  logger st' = logger st ->
  (length (levels st) <= length (levels st'))%nat ->
  levelZeroOrCreated st -> levelZeroOrCreated st'.
Proof.
  unfold levelZeroOrCreated. intros -> Hlen.
  destruct (logger st) as [[base|inner [a|]|id leveled method]|]; auto.
  intros [H|H]; [discriminate|]. right.
  apply Level_is_Some. apply Level_is_Some in H. lia.
Qed.

Lemma levelCreated_zeroOrCreated st : levelCreated st -> levelZeroOrCreated st.
Proof.
  unfold levelCreated, levelZeroOrCreated.
  destruct (logger st) as [[base|inner lvl|id leveled method]|]; auto.
Qed.

Lemma InitLog_returns_invariant env p st r st' :
  InitLog env p st = Returns r st' ->
  levelCreated st' /\ getty_log st' = logger st'.
Proof.
  intros He.
  destruct (InitLog_cases env p st) as [[e He']|(content & decoded & _ & _ & H')].
  - rewrite He' in He. injection He as _ <-. split; [|reflexivity].
    apply (facadeLogger_capability env _ _ (levels st) zapcore.DebugLevel);
      reflexivity.
  - cbv zeta in H'. destruct (yaml.level decoded) as [l|] eqn:Hlv.
    + destruct (buildable env _); rewrite H' in He; [|discriminate].
      injection He as _ <-. split; [|reflexivity].
      apply (facadeLogger_capability env _ _ (levels st) l);
        [cbn; rewrite Hlv|]; reflexivity.
    + destruct H' as [_ H']. rewrite H' in He. discriminate.
Qed.

Lemma InitLoggerWithRolling_invariant env conf rolling st st' :
  match conf with
  | Some c => zap.Level c = None \/ is_Some (zap.Level_ (zap.Level c) (levels st))
  | None => True
  end ->
  InitLoggerWithRolling env conf rolling st = Returns tt st' ->
  levelCreated st' /\ getty_log st' = logger st'.
Proof.
  intros Hok Hc.
  destruct (InitLoggerWithRolling_returns _ _ _ _ _ Hc) as (cfg & Hl & Hg & Hb & Hconf).
  split; [|exact Hg].
  unfold levelCreated. rewrite Hl. cbn [facadeLogger].
  destruct conf as [c|].
  - destruct Hconf as [-> ->].
    destruct Hok as [Hnone|Hsome]; [|exact Hsome].
    unfold buildable in Hb.
    destruct (zap.Build (canOpen env) c []) as [z|] eqn:Hz; [|discriminate].
    destruct (Build_fields _ _ _ Hz) as (_ & _ & _ & a & Ha). congruence.
  - destruct Hconf as [-> ->]. cbn [defaultConfig zap.Level].
    rewrite Level_new_cell. eauto.
Qed.

(** Every call that returns keeps getty's slot equal to the active logger
    and the dynamic level of an active [DubboLogger] zero or created. *)
Lemma call_preserves env c st st' :
  callOk st c ->
  exec env c st = Returns tt st' ->
  levelZeroOrCreated st /\ getty_log st = logger st ->
  levelZeroOrCreated st' /\ getty_log st' = logger st'.
Proof.
  intros Hok Hc [Hcr Hg].
  destruct c as [p|conf rolling|conf|log| |s|m msg]; cbn in Hc.
  - unfold bind, ret in Hc.
    destruct (InitLog env p st) as [r st1| |] eqn:He; try discriminate.
    injection Hc as <-.
    destruct (InitLog_returns_invariant _ _ _ _ _ He) as [H1 H2].
    split; [apply levelCreated_zeroOrCreated|]; assumption.
  - destruct (InitLoggerWithRolling_invariant env conf rolling st st') as [H1 H2];
      [destruct conf; exact Hok|exact Hc|].
    split; [apply levelCreated_zeroOrCreated|]; assumption.
  - destruct (InitLoggerWithRolling_invariant env conf None st st') as [H1 H2];
      [destruct conf; exact Hok|exact Hc|].
    split; [apply levelCreated_zeroOrCreated|]; assumption.
  - unfold SetLogger, bind, getty.SetLogger in Hc. cbn in Hc. injection Hc as <-.
    split; [|reflexivity].
    unfold levelZeroOrCreated. cbn.
    destruct log as [[base|inner lvl|id leveled method]|]; auto.
  - unfold bind, GetLogger, ret in Hc. injection Hc as <-. auto.
  - unfold bind, ret in Hc.
    destruct (SetLoggerLevel s st) as [b st1| |] eqn:Hs; try discriminate.
    injection Hc as <-.
    destruct (SetLoggerLevel_state _ _ _ _ Hs) as (Hl & Hg' & _ & Hlen).
    split; [eapply levelZeroOrCreated_grows; eauto|congruence].
  - unfold Log in Hc. destruct (logger st) as [l|] eqn:Hl; [|discriminate].
    destruct (LoggerImpl_log_state _ _ _ _ _ Hc) as (Hl' & Hg' & _ & Hlen).
    split; [eapply levelZeroOrCreated_grows; eauto|congruence].
Qed.

(** In every reachable state getty holds the active logger and the
    dynamic level of an active [DubboLogger] is zero or created. *)
Lemma reachable_invariant env st :
  reachable env st -> levelZeroOrCreated st /\ getty_log st = logger st.
Proof.
  induction 1 as [|c st st' Hreach IH Hok Hexec
                  |l lvl st st' Hreach IH Hnew
                  |lvl l h st Hreach IH Hset].
  - split; [exact I|reflexivity].
  - eapply call_preserves; eauto.
  - destruct IH as [Hcr Hg]. unfold NewAtomicLevelAt in Hnew. cbn in Hnew.
    injection Hnew as _ <-. split; [|exact Hg].
    apply (levelZeroOrCreated_grows st); [reflexivity| |exact Hcr].
    cbn. rewrite length_app. lia.
  - destruct IH as [Hcr Hg]. split; [|exact Hg].
    apply (levelZeroOrCreated_grows st); [reflexivity| |exact Hcr].
    unfold zap.SetLevel in Hset. destruct lvl as [a|]; [|discriminate].
    destruct (a <? _)%nat; [|discriminate]. injection Hset as <-.
    cbn. rewrite length_insert. lia.
Qed.

(** In every reachable state an active [DubboLogger] whose level is not
    the zero value answers true to [SetLoggerLevel], whatever the name. *)
Lemma reachable_SetLoggerLevel env st inner a s :
  reachable env st ->
  logger st = Some (DubboLogger inner (Some a)) ->
  exists st', SetLoggerLevel s st = Returns true st' /\ reachable env st'.
Proof.
  intros Hr Hl.
  destruct (reachable_invariant env st Hr) as [Hcr _].
  unfold levelZeroOrCreated in Hcr. rewrite Hl in Hcr.
  destruct Hcr as [Hcr|Hcr]; [discriminate|].
  destruct (SetLoggerLevel_created inner (Some a) s st Hl Hcr) as (st' & Hs & _).
  exists st'. split; [exact Hs|].
  apply (reachable_call env (CallSetLoggerLevel s) st st' Hr I).
  cbn. unfold bind, ret. rewrite Hs. reflexivity.
Qed.

(** ** The sinks at work *)

(** With the level raised to error, an error record reaches standard
    output but not the error file: the file is gated by warn against the
    level, not by the level of the record. *)
Example error_record_at_error_level :
  written
    (stateAfter
       (InitLog sampleEnv "./log.yml" ;; SetLoggerLevel "error" ;; Log Error "e")
       emptyState) =
  [ (zapcore.os_Stdout, zapcore.ErrorLevel, "e") ].
Proof. reflexivity. Qed.

(** At the level of the sample file (info) a warn record reaches the warn
    file and standard output, and a debug record reaches nothing. *)
Example warn_and_debug_records_at_info_level :
  map (fun e => (snd (fst e), snd e))
    (written
       (stateAfter
          (InitLog sampleEnv "./log.yml" ;; Log Debug "d" ;; Log Warn "w")
          emptyState)) =
  [ (zapcore.WarnLevel, "w"); (zapcore.WarnLevel, "w") ].
Proof. reflexivity. Qed.

(** ** The test [TestInitLog] of the repository *)

(** The four calls of the test and the errors it expects: the empty path,
    a path ending in [.xml], a [.yml] file that does not exist, and the
    configuration file of the package. *)
Example TestInitLog_errors :
  (exists st, InitLog sampleEnv "" emptyState =
              Returns (Some "log configure file name is nil") st) /\
  (exists st, InitLog sampleEnv "/repo/log.xml" emptyState =
              Returns (Some "log configure file name{/repo/log.xml} suffix must be .yml") st) /\
  (exists st, InitLog sampleEnv "/repo/logger.yml" emptyState =
              Returns (Some ("ioutil.ReadFile(file:/repo/logger.yml) = error:" +:+
                             "open /repo/logger.yml: no such file or directory")) st) /\
  (exists st, InitLog sampleEnv "./log.yml" emptyState = Returns None st).
Proof. repeat split; eexists; reflexivity. Qed.

(** * Further properties *)

(** ** The arguments of the process *)

(** [Parse] leaves a tail of its arguments. *)
Lemma Parse_suffix fn :
  forall n arguments value,
    (length arguments <= n)%nat ->
    exists pre, arguments = pre ++ fst (fst (flag.Parse fn arguments value)).
Proof.
  induction n as [|n IH]; intros [|s rest] value Hlen; cbn in Hlen;
    try (exists []; reflexivity); try lia.
  cbn [flag.Parse].
  destruct (flag.classify s) as [| | |name].
  - exists []. reflexivity.
  - exists [s]. reflexivity.
  - exists []. reflexivity.
  - destruct (flag.splitValue name) as [nm [x|]].
    + destruct (String.eqb nm fn).
      * destruct (IH rest x ltac:(lia)) as [pre Hpre].
        exists (s :: pre). cbn. rewrite <- Hpre. reflexivity.
      * exists [s]. reflexivity.
    + destruct (String.eqb nm fn).
      * destruct rest as [|x rest'].
        -- exists [s]. reflexivity.
        -- cbn in Hlen. destruct (IH rest' x ltac:(lia)) as [pre Hpre].
           exists (s :: x :: pre). cbn. rewrite <- Hpre. reflexivity.
      * exists [s]. reflexivity.
Qed.

Lemma Parse_length fn arguments value :
  (length (fst (fst (flag.Parse fn arguments value))) <= length arguments)%nat.
Proof.
  destruct (Parse_suffix fn (length arguments) arguments value (le_n _)) as [pre H].
  rewrite H at 2. rewrite length_app. lia.
Qed.

(** The loop over the arguments ends: with as many rounds as there are
    arguments it has a value, and more rounds do not change it. *)
Lemma parseRest_defined :
  forall n args value,
    (length args <= n)%nat ->
    exists r, forall fuel, (length args <= fuel)%nat -> parseRest fuel args value = Some r.
Proof.
  induction n as [|n IH]; intros [|a tl] value Hlen; cbn in Hlen; try lia.
  - exists value. intros fuel _. destruct fuel; reflexivity.
  - exists value. intros fuel _. destruct fuel; reflexivity.
  - pose proof (Parse_length "logConf" tl value) as Hp.
    destruct (flag.Parse "logConf" tl value) as [[args' value'] e] eqn:HP.
    cbn in Hp.
    destruct (IH args' value' ltac:(lia)) as [r Hr].
    exists r. intros [|fuel] Hf; cbn in Hf; [lia|].
    cbn [parseRest]. rewrite HP. apply Hr. lia.
Qed.

Lemma resolveLogConf_defined arguments dflt :
  exists f, resolveLogConf arguments dflt = Some f.
Proof.
  unfold resolveLogConf.
  destruct (flag.Parse "logConf" arguments dflt) as [[args' value'] e].
  destruct (parseRest_defined (length args') args' value' (le_n _)) as [r Hr].
  exists r. apply Hr. lia.
Qed.

(** Skipping the first argument left over, as the loop does. *)
Lemma parseRest_cons a tl value :
  parseRest (S (length tl)) (a :: tl) value = resolveLogConf tl value.
Proof.
  unfold resolveLogConf. cbn [parseRest].
  pose proof (Parse_length "logConf" tl value) as Hp.
  destruct (flag.Parse "logConf" tl value) as [[args' value'] e]. cbn in Hp.
  destruct (parseRest_defined (length tl) args' value' Hp) as [r Hr].
  rewrite (Hr (length tl) Hp), (Hr (length args') (le_n _)). reflexivity.
Qed.

(** Arguments that do not name the flag leave its value alone. *)
Lemma Parse_no_logConf :
  forall n arguments value,
    (length arguments <= n)%nat ->
    forallb (fun s => negb (namesLogConf s)) arguments = true ->
    snd (fst (flag.Parse "logConf" arguments value)) = value.
Proof.
  induction n as [|n IH]; intros [|s rest] value Hlen Hall;
    cbn in Hlen; try reflexivity; try lia.
  cbn in Hall. apply andb_true_iff in Hall as [Hs Hrest].
  unfold namesLogConf in Hs. cbn [flag.Parse].
  destruct (flag.classify s) as [| | |name]; try reflexivity.
  destruct (flag.splitValue name) as [nm v]. cbn in Hs.
  destruct (String.eqb nm "logConf"); [discriminate|reflexivity].
Qed.

Lemma forallb_suffix {A} (f : A -> bool) (pre l : list A) :
  forallb f (pre ++ l) = true -> forallb f l = true.
Proof. rewrite forallb_app. intros H. apply andb_true_iff in H. tauto. Qed.

Lemma parseRest_no_logConf :
  forall n args value fuel,
    (length args <= n)%nat -> (length args <= fuel)%nat ->
    forallb (fun s => negb (namesLogConf s)) args = true ->
    parseRest fuel args value = Some value.
Proof.
  induction n as [|n IH]; intros [|a tl] value fuel Hlen Hf Hall;
    cbn in Hlen; try lia; try (destruct fuel; reflexivity).
  destruct fuel as [|fuel]; cbn in Hf; [lia|].
  cbn in Hall. apply andb_true_iff in Hall as [_ Htl].
  cbn [parseRest].
  pose proof (Parse_length "logConf" tl value) as Hp.
  pose proof (Parse_no_logConf (length tl) tl value (le_n _) Htl) as Hv.
  destruct (Parse_suffix "logConf" (length tl) tl value (le_n _)) as [pre Hpre].
  destruct (flag.Parse "logConf" tl value) as [[args' value'] e].
  cbn in Hp, Hv, Hpre. subst value'.
  apply IH; try lia.
  rewrite Hpre in Htl. eapply forallb_suffix; eauto.
Qed.

Lemma resolveLogConf_no_logConf arguments dflt :
  forallb (fun s => negb (namesLogConf s)) arguments = true ->
  resolveLogConf arguments dflt = Some dflt.
Proof.
  intros Hall. unfold resolveLogConf.
  pose proof (Parse_no_logConf (length arguments) arguments dflt (le_n _) Hall) as Hv.
  destruct (Parse_suffix "logConf" (length arguments) arguments dflt (le_n _))
    as [pre Hpre].
  destruct (flag.Parse "logConf" arguments dflt) as [[args' value'] e].
  cbn in Hv, Hpre. subst value'.
  apply (parseRest_no_logConf (length args')); try lia.
  rewrite Hpre in Hall. eapply forallb_suffix; eauto.
Qed.

(** ** [init] *)

Lemma init_unfold env proc prog arguments f st :
  logger st = None ->
  Args proc = prog :: arguments ->
  resolveLogConf arguments (Getenv proc (APP_LOG_CONF_FILE proc)) = Some f ->
  init_ env proc st = (err <- InitLog env f ;; ret (warning err)) st.
Proof. intros Hl Ha Hr. unfold init_. rewrite Hl, Ha, Hr. reflexivity. Qed.

Lemma InitLog_returns_logger env p st r st' :
  InitLog env p st = Returns r st' -> logger st' <> None.
Proof.
  intros He.
  destruct (InitLog_cases env p st) as [[e He']|(content & decoded & _ & _ & H')].
  - rewrite He' in He. injection He as _ <-. discriminate.
  - cbv zeta in H'. destruct (yaml.level decoded).
    + destruct (buildable env _); rewrite H' in He; [|discriminate].
      injection He as _ <-. discriminate.
    + destruct H' as [_ H']. rewrite H' in He. discriminate.
Qed.

(** X1.  Whatever the arguments of the process, [init] on a process
    without a logger calls [InitLog] once, on the path that the arguments
    and the environment variable resolve to: the loop over the arguments
    always ends, and no argument makes [init] fail.  [init] returns, panics
    or exits as that [InitLog] does, and prints a warning exactly when
    [InitLog] returns an error. *)
Theorem init_calls_InitLog env proc prog arguments st :
  logger st = None ->
  Args proc = prog :: arguments ->
  exists f,
    resolveLogConf arguments (Getenv proc (APP_LOG_CONF_FILE proc)) = Some f /\
    init_ env proc st =
    match InitLog env f st with
    | Returns err st' => Returns (warning err) st'
    | Panics msg => Panics msg
    | Exits code st' => Exits code st'
    end.
Proof.
  intros Hl Ha.
  destruct (resolveLogConf_defined arguments (Getenv proc (APP_LOG_CONF_FILE proc)))
    as [f Hf].
  exists f. split; [exact Hf|].
  rewrite (init_unfold env proc prog arguments f st Hl Ha Hf).
  unfold bind, ret. destruct (InitLog env f st); reflexivity.
Qed.

Lemma init_calls_InitLog_witness :
  exists f,
    resolveLogConf (tl (Args sampleProcess))
      (Getenv sampleProcess (APP_LOG_CONF_FILE sampleProcess)) = Some f /\
    init_ sampleEnv sampleProcess emptyState =
    match InitLog sampleEnv f emptyState with
    | Returns err st' => Returns (warning err) st'
    | Panics msg => Panics msg
    | Exits code st' => Exits code st'
    end.
Proof.
  apply (init_calls_InitLog sampleEnv sampleProcess "logger.test"
           (tl (Args sampleProcess)) emptyState eq_refl eq_refl).
Defined.

(** X2.  [init] runs at most once: when a logger is installed it returns
    at once and changes nothing, and whenever [init] returns a logger is
    installed, so that a second [init], for any process, does nothing. *)
Theorem init_runs_once env proc st w st' :
  init_ env proc st = Returns w st' ->
  logger st' <> None /\
  (logger st <> None -> w = None /\ st' = st) /\
  forall proc', init_ env proc' st' = Returns None st'.
Proof.
  intros Hi.
  assert (Hl : logger st' <> None).
  { unfold init_ in Hi. destruct (logger st) as [l|] eqn:Hlog.
    - injection Hi as _ <-. rewrite Hlog. discriminate.
    - destruct (Args proc) as [|prog arguments]; [discriminate|].
      destruct (resolveLogConf _ _) as [f|]; [|discriminate].
      unfold bind, ret in Hi.
      destruct (InitLog env f st) as [err st1| |] eqn:He; try discriminate.
      injection Hi as _ <-. eapply InitLog_returns_logger; eauto. }
  split; [exact Hl|]. split.
  - intros Hlog. unfold init_ in Hi.
    destruct (logger st); [|congruence]. injection Hi as <- <-. auto.
  - intros proc'. unfold init_. destruct (logger st'); [reflexivity|congruence].
Qed.

Lemma init_runs_once_witness :
  init_ sampleEnv sampleProcess (stateAfter (init_ sampleEnv sampleProcess) emptyState) =
  Returns None (stateAfter (init_ sampleEnv sampleProcess) emptyState).
Proof.
  apply (proj2 (proj2 (init_runs_once sampleEnv sampleProcess emptyState None
                         (stateAfter (init_ sampleEnv sampleProcess) emptyState)
                         eq_refl)) sampleProcess).
Defined.

(** X3.  When no argument names the flag [logConf], the path is the value
    of the environment variable: [init] is [InitLog] on that value, and
    with the variable unset it installs the default logger and warns "log
    configure file name is nil". *)
Theorem init_without_flag env proc prog arguments st :
  logger st = None ->
  Args proc = prog :: arguments ->
  forallb (fun s => negb (namesLogConf s)) arguments = true ->
  init_ env proc st =
    (err <- InitLog env (Getenv proc (APP_LOG_CONF_FILE proc)) ;; ret (warning err)) st /\
  (Getenv proc (APP_LOG_CONF_FILE proc) = "" ->
   init_ env proc st =
     Returns (Some "[InitLog] warn: log configure file name is nil")
       (defaultInstalled env st)).
Proof.
  intros Hl Ha Hall.
  pose proof (resolveLogConf_no_logConf arguments
                (Getenv proc (APP_LOG_CONF_FILE proc)) Hall) as Hr.
  rewrite (init_unfold env proc prog arguments _ st Hl Ha Hr).
  split; [reflexivity|].
  intros ->. reflexivity.
Qed.

Lemma init_without_flag_witness :
  init_ sampleEnv
    {| Args := ["app"; "-v"; "serve"]; Getenv := fun _ => "";
       APP_LOG_CONF_FILE := "APP_LOG_CONF_FILE" |} emptyState =
  Returns (Some "[InitLog] warn: log configure file name is nil")
    (defaultInstalled sampleEnv emptyState).
Proof.
  apply (proj2 (init_without_flag sampleEnv
                  {| Args := ["app"; "-v"; "serve"]; Getenv := fun _ => "";
                     APP_LOG_CONF_FILE := "APP_LOG_CONF_FILE" |}
                  "app" ["-v"; "serve"] emptyState eq_refl eq_refl eq_refl)).
  reflexivity.
Defined.

(** X4.  The flag overrides the environment variable: when the first
    argument is [-logConf=f], or the first two are [-logConf] and [f], and
    no later argument names the flag, [init] is [InitLog] on [f], whatever
    the variable holds. *)
Theorem init_with_flag env proc prog f rest st :
  logger st = None ->
  Args proc = prog :: ("-logConf=" +:+ f) :: rest \/
  Args proc = prog :: "-logConf" :: f :: rest ->
  forallb (fun s => negb (namesLogConf s)) rest = true ->
  init_ env proc st = (err <- InitLog env f ;; ret (warning err)) st.
Proof.
  intros Hl Ha Hall.
  pose proof (resolveLogConf_no_logConf rest f Hall) as Hr.
  destruct Ha as [Ha|Ha];
    apply (init_unfold env proc prog _ f st Hl Ha); exact Hr.
Qed.

Lemma init_with_flag_witness :
  init_ sampleEnv
    {| Args := ["app"; "-logConf=./log.yml"; "serve"];
       Getenv := fun _ => "/etc/other.yml";
       APP_LOG_CONF_FILE := "APP_LOG_CONF_FILE" |} emptyState =
  (err <- InitLog sampleEnv "./log.yml" ;; ret (warning err)) emptyState.
Proof.
  apply (init_with_flag sampleEnv
           {| Args := ["app"; "-logConf=./log.yml"; "serve"];
              Getenv := fun _ => "/etc/other.yml";
              APP_LOG_CONF_FILE := "APP_LOG_CONF_FILE" |}
           "app" "./log.yml" ["serve"] emptyState eq_refl (or_introl eq_refl) eq_refl).
Defined.

(** X5.  The argument that follows an undefined flag is never parsed:
    [Parse] has already dropped the flag when it reports it, and the loop
    drops one more argument.  So [-logConf=f] right after a flag such as
    [-test.v] is ignored: [init] behaves as if neither argument were
    there. *)
Theorem init_skips_after_undefined_flag env proc proc' prog prog' u a rest st :
  undefinedFlag u = true ->
  Args proc = prog :: u :: a :: rest ->
  Args proc' = prog' :: rest ->
  Getenv proc (APP_LOG_CONF_FILE proc) = Getenv proc' (APP_LOG_CONF_FILE proc') ->
  init_ env proc st = init_ env proc' st.
Proof.
  intros Hu Ha Ha' Hg. unfold init_. rewrite Ha, Ha', Hg.
  assert (Hr : forall d, resolveLogConf (u :: a :: rest) d = resolveLogConf rest d).
  { intros d. unfold resolveLogConf at 1. cbn [flag.Parse].
    unfold undefinedFlag in Hu.
    destruct (flag.classify u) as [| | |name]; try discriminate.
    destruct (flag.splitValue name) as [nm v]. cbn in Hu.
    destruct (String.eqb nm "logConf"); [discriminate|].
    apply parseRest_cons. }
  rewrite Hr. reflexivity.
Qed.

Lemma init_skips_after_undefined_flag_witness :
  init_ sampleEnv
    {| Args := ["logger.test"; "-test.v"; "-logConf=./log.yml"];
       Getenv := fun _ => ""; APP_LOG_CONF_FILE := "APP_LOG_CONF_FILE" |} emptyState =
  init_ sampleEnv
    {| Args := ["logger.test"];
       Getenv := fun _ => ""; APP_LOG_CONF_FILE := "APP_LOG_CONF_FILE" |} emptyState.
Proof.
  apply (init_skips_after_undefined_flag sampleEnv
           {| Args := ["logger.test"; "-test.v"; "-logConf=./log.yml"];
              Getenv := fun _ => ""; APP_LOG_CONF_FILE := "APP_LOG_CONF_FILE" |}
           {| Args := ["logger.test"];
              Getenv := fun _ => ""; APP_LOG_CONF_FILE := "APP_LOG_CONF_FILE" |}
           "logger.test" "logger.test"
           "-test.v" "-logConf=./log.yml" [] emptyState eq_refl eq_refl eq_refl eq_refl).
Defined.

(** ** [InitLog]: the paths after the extension check *)

Lemma Ext_yml_nonempty p : path.Ext p = ".yml" -> String.eqb p "" = false.
Proof. destruct p; [discriminate|reflexivity]. Qed.

Lemma InitLog_past_extension env p st :
  path.Ext p = ".yml" ->
  InitLog env p st =
  match ReadFile env p with
  | io_err err =>
      Returns (Some ("ioutil.ReadFile(file:" +:+ p +:+ ") = error:" +:+ err))
        (defaultInstalled env st)
  | io_ok confFileStream =>
      match Unmarshal env confFileStream with
      | io_err err =>
          Returns (Some ("yaml.Unmarshal(file:" +:+ p +:+ ") = error:" +:+ err))
            (defaultInstalled env st)
      | io_ok decoded =>
          let w := decodedWrapper decoded (length (levels st)) in
          match yaml.level decoded with
          | Some l =>
              if buildable env (LogConfig w)
              then Returns None
                     (installed (facadeLogger env (LogConfig w) (Rolling w))
                        (set_levels (levels st ++ [l]) st))
              else Panics nil_dereference
          | None => Panics nil_dereference
          end
      end
  end.
Proof.
  intros Hext. unfold InitLog.
  rewrite (Ext_yml_nonempty p Hext), Hext.
  change (String.eqb ".yml" ".yml") with true. cbn [negb].
  destruct (ReadFile env p) as [content|err]; [|apply default_then_ret].
  destruct (Unmarshal env content) as [decoded|err]; [|apply default_then_ret].
  cbv zeta. unfold bind at 1. rewrite storeDecoded_eq.
  unfold bind, ret. rewrite InitLoggerWithRolling_conf.
  destruct (yaml.level decoded) as [l|] eqn:Hlv.
  - destruct (buildable env _); reflexivity.
  - assert (Hb : buildable env (LogConfig (decodedWrapper decoded (length (levels st))))
                 = false).
    { unfold buildable, zap.Build, decodedWrapper. cbn. rewrite Hlv.
      destruct (zap.buildEncoder _); [|reflexivity].
      destruct (zap.Open _ _); [|reflexivity].
      destruct (zap.Open _ _); reflexivity. }
    rewrite Hb. reflexivity.
Qed.

(** X6.  For a path with the extension [.yml] whose file cannot be read,
    [InitLog] returns the error "ioutil.ReadFile(file:" path ") = error:"
    followed by the text of the read error, and leaves the default logger
    installed. *)
Theorem InitLog_unreadable env p st err :
  path.Ext p = ".yml" ->
  ReadFile env p = io_err err ->
  InitLog env p st =
    Returns (Some ("ioutil.ReadFile(file:" +:+ p +:+ ") = error:" +:+ err))
      (defaultInstalled env st).
Proof.
  intros Hext Hr. rewrite (InitLog_past_extension env p st Hext), Hr. reflexivity.
Qed.

Lemma InitLog_unreadable_witness :
  InitLog sampleEnv "/repo/logger.yml" emptyState =
    Returns (Some ("ioutil.ReadFile(file:/repo/logger.yml) = error:" +:+
                   "open /repo/logger.yml: no such file or directory"))
      (defaultInstalled sampleEnv emptyState).
Proof.
  apply (InitLog_unreadable sampleEnv "/repo/logger.yml" emptyState
           "open /repo/logger.yml: no such file or directory" eq_refl eq_refl).
Defined.

(** X7.  For a path with the extension [.yml] whose file is read but does
    not decode, [InitLog] returns the error "yaml.Unmarshal(file:" path
    ") = error:" followed by the text of the decoder's error, and leaves
    the default logger installed. *)
Theorem InitLog_undecodable env p st content err :
  path.Ext p = ".yml" ->
  ReadFile env p = io_ok content ->
  Unmarshal env content = io_err err ->
  InitLog env p st =
    Returns (Some ("yaml.Unmarshal(file:" +:+ p +:+ ") = error:" +:+ err))
      (defaultInstalled env st).
Proof.
  intros Hext Hr Hy.
  rewrite (InitLog_past_extension env p st Hext), Hr, Hy. reflexivity.
Qed.

Lemma InitLog_undecodable_witness :
  InitLog sampleEnv "./bad.yml" emptyState =
    Returns (Some "yaml.Unmarshal(file:./bad.yml) = error:yaml: did not find expected key")
      (defaultInstalled sampleEnv emptyState).
Proof.
  apply (InitLog_undecodable sampleEnv "./bad.yml" emptyState ":"
           "yaml: did not find expected key" eq_refl eq_refl eq_refl).
Defined.

(** X8.  On its success path [InitLog] returns nil and installs, in both
    slots, a logger whose level is the decoded level and whose three files
    are named and limited by the decoded rolling keys as they are: the
    rolling configuration is never nil there, so the defaults of
    [InitLoggerWithRolling] are not applied, not even for keys that the
    document does not set. *)
Theorem InitLog_success env p st content d l :
  path.Ext p = ".yml" ->
  ReadFile env p = io_ok content ->
  Unmarshal env content = io_ok d ->
  yaml.level d = Some l ->
  buildable env (LogConfig (decodedWrapper d (length (levels st)))) = true ->
  exists st',
    InitLog env p st = Returns None st' /\
    getty_log st' = logger st' /\
    currentLevel st' = Some (zapcore.wrap8 l) /\
    written st' = written st /\
    fileSinks (logger st') =
      map (fun name =>
             {| lumberjack.Filename := yaml.logFilePath d +:+ Separator env +:+ name;
                lumberjack.MaxSize := yaml.maxSize d;
                lumberjack.MaxBackups := yaml.maxBackups d;
                lumberjack.MaxAge := yaml.maxAge d;
                lumberjack.Compress := yaml.compress d |})
          [yaml.infoFilename d; yaml.warnFilename d; yaml.errorFilename d].
Proof.
  intros Hext Hr Hy Hl Hb.
  rewrite (InitLog_past_extension env p st Hext), Hr, Hy. cbv zeta.
  rewrite Hl, Hb. eexists. split; [reflexivity|].
  split; [reflexivity|]. split; [|split; reflexivity].
  unfold currentLevel. cbn [logger installed facadeLogger].
  cbn [decodedWrapper LogConfig zap.Level levels set_levels]. rewrite Hl.
  apply Level_new_cell.
Qed.

Lemma InitLog_success_witness :
  exists st',
    InitLog sampleEnv "./log.yml" emptyState = Returns None st' /\
    getty_log st' = logger st' /\
    currentLevel st' = Some (zapcore.wrap8 zapcore.InfoLevel) /\
    written st' = written emptyState /\
    fileSinks (logger st') =
      map (fun name =>
             {| lumberjack.Filename := "./logs" +:+ "/" +:+ name;
                lumberjack.MaxSize := 1;
                lumberjack.MaxBackups := 2;
                lumberjack.MaxAge := 3;
                lumberjack.Compress := false |})
          ["info.log"; "warn.log"; "error.log"].
Proof.
  apply (InitLog_success sampleEnv "./log.yml" emptyState "log" sampleDecoded
           zapcore.InfoLevel eq_refl eq_refl eq_refl eq_refl eq_refl).
Defined.


(** ** The extension check of [InitLog] *)

Lemma string_length_app (a b : string) :
  String.length (a +:+ b) = (String.length a + String.length b)%nat.
Proof. induction a as [|c a IH]; simpl; [reflexivity|]. f_equal. exact IH. Qed.

Lemma substring_app_r (pre s : string) n :
  String.substring (String.length pre) n (pre +:+ s) = String.substring 0 n s.
Proof. induction pre as [|c pre IH]; cbn; [reflexivity|exact IH]. Qed.

Lemma substring_full (s : string) : String.substring 0 (String.length s) s = s.
Proof. induction s as [|c s IH]; simpl; [reflexivity|]. f_equal. exact IH. Qed.

(** A string is what comes before an index followed by what comes from
    it. *)
Lemma substring_split :
  forall (p : string) i,
    (i <= String.length p)%nat ->
    p = String.substring 0 i p +:+ String.substring i (String.length p - i) p.
Proof.
  induction p as [|c p IH]; intros [|i] Hi; simpl in Hi; try lia.
  - reflexivity.
  - rewrite Nat.sub_0_r, substring_full. reflexivity.
  - simpl. change (String c p = String c (String.substring 0 i p +:+
                      String.substring i (String.length p - i) p)).
    f_equal. apply IH. lia.
Qed.

Lemma Ext_loop_skip p i c :
  String.get i p = Some c ->
  Ascii.eqb c "/" = false -> Ascii.eqb c "." = false ->
  path.Ext_loop p (S i) = path.Ext_loop p i.
Proof. intros Hg H1 H2. cbn [path.Ext_loop]. rewrite Hg, H1, H2. reflexivity. Qed.

(** The extension, when there is one, is a tail of the path. *)
Lemma Ext_loop_tail p :
  forall n,
    path.Ext_loop p n = "" \/
    exists i, (i < n)%nat /\
              path.Ext_loop p n = String.substring i (String.length p - i) p.
Proof.
  induction n as [|n IH]; cbn [path.Ext_loop]; [left; reflexivity|].
  destruct (String.get n p) as [c|]; [|left; reflexivity].
  destruct (Ascii.eqb c "/"); [left; reflexivity|].
  destruct (Ascii.eqb c ".").
  - right. exists n. split; [lia|reflexivity].
  - destruct IH as [IH|(i & Hi & IH)]; [left; exact IH|].
    right. exists i. split; [lia|exact IH].
Qed.

(** [path.Ext(p) == ".yml"] says that [p] ends in ".yml". *)
Lemma Ext_yml_iff p :
  path.Ext p = ".yml" <-> exists pre, p = pre +:+ ".yml".
Proof.
  split.
  - unfold path.Ext. intros H.
    destruct (Ext_loop_tail p (String.length p)) as [H0|(i & Hi & Hs)].
    + rewrite H0 in H. discriminate.
    + rewrite H in Hs. exists (String.substring 0 i p).
      rewrite Hs. apply substring_split. lia.
  - intros [pre ->]. unfold path.Ext.
    rewrite string_length_app. cbn [String.length].
    replace (String.length pre + 4)%nat with (S (3 + String.length pre)) by lia.
    rewrite (Ext_loop_skip _ _ "l");
      [|rewrite <- append_correct2; reflexivity|reflexivity|reflexivity].
    change (3 + String.length pre)%nat with (S (2 + String.length pre)).
    rewrite (Ext_loop_skip _ _ "m");
      [|rewrite <- append_correct2; reflexivity|reflexivity|reflexivity].
    change (2 + String.length pre)%nat with (S (1 + String.length pre)).
    rewrite (Ext_loop_skip _ _ "y");
      [|rewrite <- append_correct2; reflexivity|reflexivity|reflexivity].
    change (1 + String.length pre)%nat with (S (0 + String.length pre)).
    cbn [path.Ext_loop]. rewrite <- append_correct2. cbn [String.get Ascii.eqb].
    change (Ascii.eqb "." "/") with false. change (Ascii.eqb "." ".") with true.
    cbn [Nat.add]. rewrite string_length_app. cbn [String.length].
    replace (String.length pre + 4 - String.length pre)%nat with 4%nat by lia.
    rewrite substring_app_r. reflexivity.
Qed.

(** X10.  [InitLog] answers with the error about the suffix exactly for
    the paths that are not empty and do not end in ".yml"; the comparison
    is by bytes, so ".YML" or ".yaml" do not pass, and a path ending in
    ".yml" passes whatever comes before. *)
Theorem InitLog_suffix_error_iff env p st :
  InitLog env p st =
    Returns (Some ("log configure file name{" +:+ p +:+ "} suffix must be .yml"))
      (defaultInstalled env st) <->
  p <> "" /\ ~ exists pre, p = pre +:+ ".yml".
Proof.
  rewrite <- Ext_yml_iff. split.
  - intros H. split.
    + intros ->. discriminate H.
    + intros Hext. rewrite (InitLog_past_extension env p st Hext) in H.
      destruct (ReadFile env p) as [content|err]; [|discriminate H].
      destruct (Unmarshal env content) as [d|err]; [|discriminate H].
      cbv zeta in H. destruct (yaml.level d); [|discriminate].
      destruct (buildable env _); discriminate.
  - intros [Hp Hext]. unfold InitLog.
    apply String.eqb_neq in Hp. rewrite Hp.
    apply String.eqb_neq in Hext. rewrite Hext. cbn [negb].
    apply default_then_ret.
Qed.

Lemma InitLog_suffix_error_iff_witness :
  InitLog sampleEnv "./log.YML" emptyState =
    Returns (Some "log configure file name{./log.YML} suffix must be .yml")
      (defaultInstalled sampleEnv emptyState).
Proof.
  apply (proj2 (InitLog_suffix_error_iff sampleEnv "./log.YML" emptyState)).
  split; [discriminate|].
  intros Hpre. apply (proj2 (Ext_yml_iff "./log.YML")) in Hpre. discriminate Hpre.
Defined.

(** ** Where records go *)

(** X11.  Whatever the level of the logger, a record reaches at most one
    of the three files: the info file only at info, the warn file only at
    warn, the error file only above warn.  A record below info (a debug
    record) reaches no file at all, so debug output exists on the console
    only. *)
Theorem file_sinks_exclusive env conf rolling st st' st'' level :
  InitLoggerWithRolling env conf rolling st = Returns tt st' ->
  logger st'' = logger st' ->
  (sinkEnabled 0 st'' level = Some true -> level = zapcore.InfoLevel) /\
  (sinkEnabled 1 st'' level = Some true -> level = zapcore.WarnLevel) /\
  (sinkEnabled 2 st'' level = Some true -> level > zapcore.WarnLevel) /\
  (level < zapcore.InfoLevel ->
   sinkEnabled 0 st'' level = Some false /\
   sinkEnabled 1 st'' level = Some false /\
   sinkEnabled 2 st'' level = Some false).
Proof.
  intros Hinit Hlog.
  destruct (InitLoggerWithRolling_returns _ _ _ _ _ Hinit) as (cfg & Hl & _).
  rewrite <- Hlog in Hl.
  destruct (sinkEnabled_facade _ _ _ _ level Hl) as (Hi & Hw & He & _).
  rewrite Hi, Hw, He.
  unfold infoLevel, warnLevel, errorLevel, zapcore.LevelEnablerFunc,
    zapcore.InfoLevel, zapcore.WarnLevel.
  destruct (Z.eqb_spec level 0), (Z.eqb_spec level 1), (Z.gtb_spec level 1);
    repeat split; intros; try discriminate; try reflexivity; try lia.
Qed.

Lemma file_sinks_exclusive_witness :
  sinkEnabled 0 (defaultInstalled sampleEnv emptyState) zapcore.DebugLevel = Some false /\
  sinkEnabled 1 (defaultInstalled sampleEnv emptyState) zapcore.DebugLevel = Some false /\
  sinkEnabled 2 (defaultInstalled sampleEnv emptyState) zapcore.DebugLevel = Some false.
Proof.
  apply (proj2 (proj2 (proj2
           (file_sinks_exclusive sampleEnv None None emptyState
              (defaultInstalled sampleEnv emptyState)
              (defaultInstalled sampleEnv emptyState)
              zapcore.DebugLevel eq_refl eq_refl)))).
  reflexivity.
Defined.

(** X12.  A record that reaches the info file or the warn file also
    reaches the console, whatever the level of the logger; so does a
    record that reaches the error file, when its level minus the level of
    the logger fits an [int8]. *)
Theorem file_record_reaches_console env conf rolling st st' st'' L level :
  InitLoggerWithRolling env conf rolling st = Returns tt st' ->
  logger st'' = logger st' ->
  currentLevel st'' = Some L ->
  (sinkEnabled 0 st'' level = Some true -> sinkEnabled 3 st'' level = Some true) /\
  (sinkEnabled 1 st'' level = Some true -> sinkEnabled 3 st'' level = Some true) /\
  (zapcore.is_int8 (level - L) ->
   sinkEnabled 2 st'' level = Some true -> sinkEnabled 3 st'' level = Some true).
Proof.
  intros Hinit Hlog HL.
  destruct (InitLoggerWithRolling_returns _ _ _ _ _ Hinit) as (cfg & Hl & _).
  rewrite <- Hlog in Hl.
  destruct (sinkEnabled_facade _ _ _ _ level Hl) as (Hi & Hw & He & Hco & Hc).
  rewrite Hc in HL. pose proof (Level_int8 _ _ _ HL) as HL8.
  rewrite Hi, Hw, He, Hco.
  unfold infoLevel, warnLevel, errorLevel, consoleLevel, zapcore.LevelEnablerFunc.
  rewrite HL.
  split; [|split].
  - destruct (Z.eqb_spec level zapcore.InfoLevel) as [->|]; [|discriminate].
    change (zapcore.sub zapcore.InfoLevel zapcore.InfoLevel) with zapcore.InfoLevel.
    auto.
  - destruct (Z.eqb_spec level zapcore.WarnLevel) as [->|]; [|discriminate]. auto.
  - intros Hd. destruct (Z.gtb_spec level zapcore.WarnLevel) as [Hgt|]; [|discriminate].
    intros [= Hw1]. f_equal. rewrite (sub_exact level L Hd).
    unfold zapcore.sub, zapcore.wrap8, zapcore.WarnLevel, zapcore.is_int8 in *.
    apply Z.gtb_lt in Hw1. apply Z.gtb_lt.
    destruct (Z_le_gt_dec (1 - L) 127) as [Hle|Hgt'].
    + rewrite Z.mod_small in Hw1 by lia. lia.
    + lia.
Qed.

Lemma file_record_reaches_console_witness :
  sinkEnabled 3 (defaultInstalled sampleEnv emptyState) zapcore.ErrorLevel = Some true.
Proof.
  apply (proj2 (proj2
           (file_record_reaches_console sampleEnv None None emptyState
              (defaultInstalled sampleEnv emptyState)
              (defaultInstalled sampleEnv emptyState)
              zapcore.DebugLevel zapcore.ErrorLevel eq_refl eq_refl eq_refl))).
  - unfold zapcore.is_int8, zapcore.ErrorLevel, zapcore.DebugLevel. lia.
  - reflexivity.
Defined.




(** X14.  All four sinks encode with the JSON encoder made from the
    [EncoderConfig] of the configuration, whatever its [Encoding] says:
    with no configuration the default one says "console", and the console
    output is JSON all the same. *)
Theorem sinks_encode_json env conf rolling st st' :
  InitLoggerWithRolling env conf rolling st = Returns tt st' ->
  encodersOf (logger st') =
    repeat (zapcore.jsonEncoder
              match conf with
              | Some c => zap.EncoderConfig_ c
              | None => defaultEncoderConfig
              end) 4 /\
  (conf = None ->
   zap.Encoding (defaultConfig (length (levels st))) = "console" /\
   encodersOf (logger st') = repeat (zapcore.jsonEncoder defaultEncoderConfig) 4).
Proof.
  intros H.
  destruct (InitLoggerWithRolling_returns _ _ _ _ _ H) as (cfg & Hl & _ & _ & Hconf).
  rewrite Hl. destruct conf as [c|].
  - destruct Hconf as [-> _]. split; [reflexivity|discriminate].
  - destruct Hconf as [-> _]. split; [reflexivity|]. intros _. split; reflexivity.
Qed.

Lemma sinks_encode_json_witness :
  encodersOf (logger (defaultInstalled sampleEnv emptyState)) =
  repeat (zapcore.jsonEncoder defaultEncoderConfig) 4.
Proof.
  apply (proj1 (sinks_encode_json sampleEnv None None emptyState
                  (defaultInstalled sampleEnv emptyState) eq_refl)).
Defined.

Lemma InitLoggerWithRolling_nil env rolling st :
  InitLoggerWithRolling env None rolling st =
  Returns tt
    (installed
       (facadeLogger env (defaultConfig (length (levels st))) (resolveRolling rolling))
       (set_levels (levels st ++ [zapcore.DebugLevel]) st)).
Proof. reflexivity. Qed.


(** X16.  A rolling configuration that is given is used as it is:
    the three files are [LogFilePath], the separator and the file name of
    each level, and they share the size, backup and age limits and the
    compression flag.  No field is defaulted one by one, so an empty file
    name or a zero limit stays as given. *)
Theorem rolling_given_is_used_verbatim env conf r st st' :
  InitLoggerWithRolling env conf (Some r) st = Returns tt st' ->
  fileSinks (logger st') =
    map (fun name =>
           {| lumberjack.Filename := LogFilePath r +:+ Separator env +:+ name;
              lumberjack.MaxSize := MaxSize r;
              lumberjack.MaxBackups := MaxBackups r;
              lumberjack.MaxAge := MaxAge r;
              lumberjack.Compress := Compress r |})
        [InfoFilename r; WarnFilename r; ErrorFilename r].
Proof.
  intros H.
  destruct (InitLoggerWithRolling_returns _ _ _ _ _ H) as (cfg & -> & _).
  reflexivity.
Qed.

Lemma rolling_given_is_used_verbatim_witness :
  fileSinks (logger (stateAfter
                       (InitLoggerWithRolling sampleEnv None
                          (Some {| LogFilePath := "/var/log"; ErrorFilename := "";
                                   WarnFilename := "w.log"; InfoFilename := "i.log";
                                   MaxSize := 0; MaxBackups := 0; MaxAge := 0;
                                   Compress := true |}))
                       emptyState)) =
  [ {| lumberjack.Filename := "/var/log/i.log"; lumberjack.MaxSize := 0;
       lumberjack.MaxBackups := 0; lumberjack.MaxAge := 0;
       lumberjack.Compress := true |};
    {| lumberjack.Filename := "/var/log/w.log"; lumberjack.MaxSize := 0;
       lumberjack.MaxBackups := 0; lumberjack.MaxAge := 0;
       lumberjack.Compress := true |};
    {| lumberjack.Filename := "/var/log/"; lumberjack.MaxSize := 0;
       lumberjack.MaxBackups := 0; lumberjack.MaxAge := 0;
       lumberjack.Compress := true |} ].
Proof.
  apply (rolling_given_is_used_verbatim sampleEnv None
           {| LogFilePath := "/var/log"; ErrorFilename := "";
              WarnFilename := "w.log"; InfoFilename := "i.log";
              MaxSize := 0; MaxBackups := 0; MaxAge := 0; Compress := true |}
           emptyState _ eq_refl).
Defined.

(** ** The dynamic level *)

(** X17.  A name that parses is read back: after [SetLoggerLevel(s)] on a
    [DubboLogger] with a created level, the level of the logger is the
    level that [s] names. *)
Theorem SetLoggerLevel_round_trip inner lvl s l st :
  logger st = Some (DubboLogger inner lvl) ->
  levelCreated st ->
  zapcore.Set_ s = Some l ->
  exists st', SetLoggerLevel s st = Returns true st' /\ currentLevel st' = Some l.
Proof.
  intros Hl Hc Hs. unfold levelCreated in Hc. rewrite Hl in Hc.
  destruct lvl as [a|]; [|destruct Hc; discriminate].
  apply Level_is_Some in Hc.
  rewrite (SetLoggerLevel_Dubbo inner a s st Hl Hc), Hs.
  eexists. split; [reflexivity|].
  unfold currentLevel. cbn. rewrite Hl. unfold zap.Level_.
  rewrite list_lookup_insert_eq by exact Hc. cbn.
  rewrite wrap8_id; [reflexivity|].
  pose proof (Set_named s l Hs). unfold zapcore.is_int8. lia.
Qed.

Lemma SetLoggerLevel_round_trip_witness :
  exists st', SetLoggerLevel "ERROR" (defaultInstalled sampleEnv emptyState) =
                Returns true st' /\
              currentLevel st' = Some zapcore.ErrorLevel.
Proof.
  eapply (SetLoggerLevel_round_trip _ _ "ERROR" zapcore.ErrorLevel
            (defaultInstalled sampleEnv emptyState) eq_refl).
  - cbn. eauto.
  - reflexivity.
Defined.

(** X18.  The last name that parses wins: two [SetLoggerLevel] calls in a
    row leave the state of the second alone when its name parses, and the
    state of the first alone when it does not. *)
Theorem SetLoggerLevel_last_wins inner lvl s1 s2 st :
  logger st = Some (DubboLogger inner lvl) ->
  levelCreated st ->
  (SetLoggerLevel s1 ;; SetLoggerLevel s2) st =
  match zapcore.Set_ s2 with
  | Some _ => SetLoggerLevel s2 st
  | None => SetLoggerLevel s1 st
  end.
Proof.
  intros Hl Hc. unfold levelCreated in Hc. rewrite Hl in Hc.
  destruct lvl as [a|]; [|destruct Hc; discriminate].
  apply Level_is_Some in Hc.
  unfold bind. rewrite !(SetLoggerLevel_Dubbo inner a _ st Hl Hc).
  destruct (zapcore.Set_ s1) as [l1|].
  - rewrite (SetLoggerLevel_Dubbo inner a s2 _); [| exact Hl | cbn; rewrite length_insert; exact Hc].
    destruct (zapcore.Set_ s2) as [l2|]; [|reflexivity].
    unfold set_levels. cbn. rewrite list_insert_insert_eq. reflexivity.
  - rewrite (SetLoggerLevel_Dubbo inner a s2 st Hl Hc).
    destruct (zapcore.Set_ s2); reflexivity.
Qed.

Lemma SetLoggerLevel_last_wins_witness :
  (SetLoggerLevel "warn" ;; SetLoggerLevel "error")
    (defaultInstalled sampleEnv emptyState) =
  SetLoggerLevel "error" (defaultInstalled sampleEnv emptyState).
Proof.
  eapply (SetLoggerLevel_last_wins _ _ "warn" "error"
            (defaultInstalled sampleEnv emptyState) eq_refl).
  cbn. eauto.
Defined.

(** X19.  The logger shares the level of the configuration it was built
    from: after [InitLoggerWithRolling(conf, rolling)] (so also after
    [InitLogger(conf)]), a [SetLoggerLevel] with a name that parses changes
    the [AtomicLevel] that the caller put into [conf], and the sinks follow
    at once, without a new logger: the console accepts exactly the named
    levels at or above the new level. *)
Theorem SetLoggerLevel_changes_config_level env conf rolling st st1 s l :
  InitLoggerWithRolling env (Some conf) rolling st = Returns tt st1 ->
  is_Some (zap.Level_ (zap.Level conf) (levels st)) ->
  zapcore.Set_ s = Some l ->
  exists st2,
    SetLoggerLevel s st1 = Returns true st2 /\
    zap.Level_ (zap.Level conf) (levels st2) = Some l /\
    logger st2 = logger st1 /\
    forall level, -1 <= level <= 5 -> sinkEnabled 3 st2 level = Some (level >=? l).
Proof.
  intros Hinit Hc Hs.
  rewrite InitLoggerWithRolling_conf in Hinit.
  destruct (buildable env conf); [|discriminate]. injection Hinit as <-.
  destruct (zap.Level conf) as [a|] eqn:Ha; [|destruct Hc; discriminate].
  apply Level_is_Some in Hc.
  pose proof (Set_named s l Hs) as Hn.
  assert (Hl : logger (installed (facadeLogger env conf (resolveRolling rolling)) st) =
               Some (DubboLogger
                       (Some (SugaredLogger
                                {| zap.core := zapcore.multiCore
                                                 (zapCores env conf (resolveRolling rolling));
                                   zap.development := zap.Development conf;
                                   zap.errorOutput :=
                                     zapcore.openedPaths (zap.ErrorOutputPaths conf);
                                   zap.callerSkip := 3 |}))
                       (Some a))).
  { cbn. unfold facadeLogger. rewrite Ha. reflexivity. }
  rewrite (SetLoggerLevel_Dubbo _ a s _ Hl Hc), Hs.
  eexists. split; [reflexivity|].
  assert (HL : zap.Level_ (Some a) (<[a:=l]> (levels st)) = Some l).
  { unfold zap.Level_. rewrite list_lookup_insert_eq by exact Hc. cbn.
    rewrite wrap8_id; [reflexivity|]. unfold zapcore.is_int8. lia. }
  split; [exact HL|]. split; [reflexivity|].
  intros level Hlevel.
  unfold sinkEnabled. cbn. unfold consoleLevel, zapcore.LevelEnablerFunc.
  rewrite Ha, HL. rewrite sub_exact by (unfold zapcore.is_int8; lia).
  f_equal. destruct (Z.gtb_spec (level - l) (-1)), (Z.geb_spec level l);
    try reflexivity; lia.
Qed.

Lemma SetLoggerLevel_changes_config_level_witness :
  exists st2,
    SetLoggerLevel "warn"
      (installed (facadeLogger sampleEnv (jsonConfigAt 0) (resolveRolling None))
         (stateWithLevel zapcore.DebugLevel)) = Returns true st2 /\
    zap.Level_ (zap.Level (jsonConfigAt 0)) (levels st2) = Some zapcore.WarnLevel /\
    logger st2 =
      logger (installed (facadeLogger sampleEnv (jsonConfigAt 0) (resolveRolling None))
                (stateWithLevel zapcore.DebugLevel)) /\
    forall level, -1 <= level <= 5 ->
                  sinkEnabled 3 st2 level = Some (level >=? zapcore.WarnLevel).
Proof.
  apply (SetLoggerLevel_changes_config_level sampleEnv (jsonConfigAt 0) None
           (stateWithLevel zapcore.DebugLevel) _ "warn" zapcore.WarnLevel eq_refl).
  - cbn. eauto.
  - reflexivity.
Defined.

(** X20.  The states that a process reaches from a start without a
    logger, by calls of the package that return and by making atomic
    levels and storing into them as clients do: getty's slot holds the
    active logger; the dynamic level of an active [DubboLogger] is the zero
    value or has its cell; and an active [DubboLogger] whose level is not
    the zero value answers true to every [SetLoggerLevel], in a state that
    is reachable again. *)
Theorem reachable_states_are_consistent env st :
  reachable env st ->
  getty_log st = logger st /\
  levelZeroOrCreated st /\
  (forall inner a,
      logger st = Some (DubboLogger inner (Some a)) ->
      forall s, exists st', SetLoggerLevel s st = Returns true st' /\
                            reachable env st').
Proof.
  intros Hr. destruct (reachable_invariant env st Hr) as [Hc Hg].
  split; [exact Hg|]. split; [exact Hc|].
  intros inner a Hl s. apply (reachable_SetLoggerLevel env st inner a s Hr Hl).
Qed.

(** An instance: the client makes a level that holds the lowest [int8],
    and [InitLogger] is the first call of the package. *)
Lemma reachable_states_are_consistent_witness :
  getty_log lowestLevelState = logger lowestLevelState /\
  exists st', SetLoggerLevel "info" lowestLevelState = Returns true st' /\
              reachable sampleEnv st'.
Proof.
  assert (Hr : reachable sampleEnv lowestLevelState).
  { apply (reachable_call sampleEnv (CallInitLogger (Some (jsonConfigAt 0)))
             (stateWithLevel (-128)) lowestLevelState).
    - apply (reachable_NewAtomicLevelAt sampleEnv (-128) (Some 0%nat) emptyState
               (stateWithLevel (-128)) (reachable_start sampleEnv) eq_refl).
    - right. cbn. eauto.
    - reflexivity. }
  split.
  - apply (proj1 (reachable_states_are_consistent sampleEnv lowestLevelState Hr)).
  - apply (proj2 (proj2 (reachable_states_are_consistent sampleEnv lowestLevelState Hr))
             _ 0%nat eq_refl "info").
Defined.

(** ** The tests of the repository *)

Lemma InitLog_nil_state env p st st1 :
  InitLog env p st = Returns None st1 ->
  exists cfg lr l,
    st1 = installed (facadeLogger env cfg lr) (set_levels (levels st ++ [l]) st) /\
    zap.Level cfg = Some (length (levels st)).
Proof.
  intros He.
  destruct (InitLog_cases env p st) as [[e He']|(content & decoded & _ & _ & H')].
  - rewrite He' in He. discriminate.
  - cbv zeta in H'. destruct (yaml.level decoded) as [l|] eqn:Hlv.
    + destruct (buildable env _); rewrite H' in He; [|discriminate].
      injection He as <-. do 3 eexists. split; [reflexivity|].
      cbn. rewrite Hlv. reflexivity.
    + destruct H' as [_ H']. rewrite H' in He. discriminate.
Qed.








(** ** Replacing the logger *)

(** X23.  [SetLogger] takes the nil logger like any other: both slots
    become nil, [SetLoggerLevel] then answers false for every name and
    changes nothing, and every log call panics on the nil interface, until
    a logger is installed again. *)
Theorem SetLogger_nil st :
  let st' := stateAfter (SetLogger None) st in
  SetLogger None st = Returns tt st' /\
  logger st' = None /\ getty_log st' = None /\
  levels st' = levels st /\ written st' = written st /\
  (forall s, SetLoggerLevel s st' = Returns false st') /\
  (forall m msg, Log m msg st' = Panics nil_dereference) /\
  (forall x, exists st'', SetLogger (Some x) st' = Returns tt st'' /\
                          logger st'' = Some x).
Proof.
  cbv zeta. repeat split. intros x. eexists. split; reflexivity.
Qed.

(** X24.  Swapping the logger and putting the old one back is a round
    trip: when getty's slot agrees with the package variable, as it does
    in every reachable state, [SetLogger(x)] followed by [SetLogger] of the
    logger that was active leaves the state exactly as it was, the dynamic
    level included. *)
Theorem SetLogger_swap_and_restore x st :
  getty_log st = logger st ->
  (SetLogger x ;; SetLogger (logger st)) st = Returns tt st /\
  (old <- GetLogger ;; SetLogger x ;; SetLogger old) st = Returns tt st.
Proof.
  intros Hg. destruct st as [lg gl lv wr]. cbn in Hg. subst gl.
  split; reflexivity.
Qed.

Lemma SetLogger_swap_and_restore_witness :
  (SetLogger (Some (silentLogger 7)) ;;
   SetLogger (logger (defaultInstalled sampleEnv emptyState)))
    (defaultInstalled sampleEnv emptyState) =
  Returns tt (defaultInstalled sampleEnv emptyState).
Proof.
  apply (proj1 (SetLogger_swap_and_restore (Some (silentLogger 7))
                  (defaultInstalled sampleEnv emptyState) eq_refl)).
Defined.

(** ** What the calls leave alone *)

Lemma InitLog_returns_frame env p st r st' :
  InitLog env p st = Returns r st' ->
  written st' = written st /\ exists l, levels st' = levels st ++ [l].
Proof.
  intros He.
  destruct (InitLog_cases env p st) as [[e He']|(content & decoded & _ & _ & H')].
  - rewrite He' in He. injection He as _ <-. split; [reflexivity|]. eexists. reflexivity.
  - cbv zeta in H'. destruct (yaml.level decoded) as [l|].
    + destruct (buildable env _); rewrite H' in He; [|discriminate].
      injection He as _ <-. split; [reflexivity|]. eexists. reflexivity.
    + destruct H' as [_ H']. rewrite H' in He. discriminate.
Qed.

Lemma InitLoggerWithRolling_returns_frame env conf rolling st st' :
  InitLoggerWithRolling env conf rolling st = Returns tt st' ->
  written st' = written st /\ exists new, levels st' = levels st ++ new.
Proof.
  destruct conf as [c|].
  - rewrite InitLoggerWithRolling_conf. destruct (buildable env c); [|discriminate].
    intros [= <-]. split; [reflexivity|]. exists []. cbn. rewrite app_nil_r. reflexivity.
  - rewrite InitLoggerWithRolling_nil. intros [= <-].
    split; [reflexivity|]. eexists. reflexivity.
Qed.

(** A method call in which no code of a client runs leaves the level
    cells as they were. *)
Lemma ownCode_log_levels :
  forall l m msg st st',
    ownCode l = true ->
    LoggerImpl_log l m msg st = Returns tt st' -> levels st' = levels st.
Proof.
  fix IH 1. intros [base|[inner|] lvl|id leveled method] m msg st st'; simpl.
  - intros _. unfold SugaredLogger_log.
    destruct (zapcore.Check _ _ _); [|discriminate].
    destruct (_ =? _); [discriminate|]. intros [= <-]. reflexivity.
  - apply IH.
  - discriminate.
  - discriminate.
Qed.

(** X25.  What a call of the package that returns leaves alone.  Whatever
    the logger, the entries are only added to and no level cell is lost.
    When the call runs no method of a client's implementation: only a log
    call hands records to writers; only [SetLoggerLevel] writes an existing
    level cell, and only the cell of the dynamic level of the active
    [DubboLogger].  [InitLog], [InitLoggerWithRolling] and [InitLogger]
    make a new cell at most, so a logger installed earlier keeps its
    level. *)
Theorem calls_frame env c st st' :
  exec env c st = Returns tt st' ->
  (exists es, written st' = written st ++ es) /\
  (length (levels st) <= length (levels st'))%nat /\
  (runsClientCode c st = false ->
   ((forall m msg, c <> CallLog m msg) -> written st' = written st) /\
   (forall a,
       (a < length (levels st))%nat ->
       levels st' !! a <> levels st !! a ->
       (exists s, c = CallSetLoggerLevel s) /\
       exists inner, logger st = Some (DubboLogger inner (Some a)))).
Proof.
  intros Hc.
  assert (Happ : forall new,
             levels st' = levels st ++ new -> written st' = written st ->
             (exists es, written st' = written st ++ es) /\
             (length (levels st) <= length (levels st'))%nat /\
             (runsClientCode c st = false ->
              ((forall m msg, c <> CallLog m msg) -> written st' = written st) /\
              (forall a,
                  (a < length (levels st))%nat ->
                  levels st' !! a <> levels st !! a ->
                  (exists s, c = CallSetLoggerLevel s) /\
                  exists inner, logger st = Some (DubboLogger inner (Some a))))).
  { intros new Hl Hw. split; [exists []; rewrite app_nil_r; exact Hw|]. split.
    - rewrite Hl, length_app. lia.
    - intros _. split; [auto|].
      intros a Ha Hne. exfalso. apply Hne. rewrite Hl. apply lookup_app_l. exact Ha. }
  destruct c as [p|conf rolling|conf|log| |s|m msg]; cbn in Hc.
  - unfold bind, ret in Hc.
    destruct (InitLog env p st) as [r st1| |] eqn:He; try discriminate.
    injection Hc as <-.
    destruct (InitLog_returns_frame env p st r st1 He) as (Hw & l & Hl).
    apply (Happ [l]); auto.
  - destruct (InitLoggerWithRolling_returns_frame _ _ _ _ _ Hc) as (Hw & new & Hl).
    apply (Happ new); auto.
  - destruct (InitLoggerWithRolling_returns_frame _ _ _ _ _ Hc) as (Hw & new & Hl).
    apply (Happ new); auto.
  - unfold SetLogger, bind, getty.SetLogger in Hc. cbn in Hc. injection Hc as <-.
    apply (Happ []); cbn; auto; rewrite app_nil_r; reflexivity.
  - unfold bind, GetLogger, ret in Hc. injection Hc as <-.
    apply (Happ []); cbn; auto; rewrite app_nil_r; reflexivity.
  - unfold bind, ret in Hc.
    destruct (SetLoggerLevel s st) as [b st1| |] eqn:Hs; try discriminate.
    injection Hc as <-.
    destruct (SetLoggerLevel_state _ _ _ _ Hs) as (_ & _ & Hw & Hlen).
    split; [exact Hw|]. split; [exact Hlen|].
    cbn [runsClientCode]. revert Hs. unfold SetLoggerLevel.
    destruct (logger st) as [[base|inner lvl|id leveled method]|]; cbn;
      try discriminate.
    + intros [= _ <-] _. split; [auto|]. intros a _ Hne. congruence.
    + unfold bind, DubboLogger_SetLoggerLevel, ret, zap.SetLevel.
      destruct (zapcore.Set_ s) as [l|].
      2:{ intros [= _ <-] _. split; [auto|]. intros a _ Hne. congruence. }
      destruct lvl as [b'|]; [|discriminate].
      destruct (b' <? _)%nat; [|discriminate].
      intros [= _ <-] _. split; [auto|].
      intros a Ha Hne. split; [eauto|]. cbn in Hne.
      destruct (Nat.eq_dec b' a) as [->|Hab]; [eauto|].
      exfalso. apply Hne. apply list_lookup_insert_ne. exact Hab.
    + intros [= _ <-] _. split; [auto|]. intros a _ Hne. congruence.
  - unfold Log in Hc. destruct (logger st) as [l|] eqn:Hl; [|discriminate].
    destruct (LoggerImpl_log_state _ _ _ _ _ Hc) as (_ & _ & Hw & Hlen).
    split; [exact Hw|]. split; [exact Hlen|].
    cbn [runsClientCode]. rewrite Hl. cbn [noClientCode]. intros Hown.
    apply negb_false_iff in Hown.
    split.
    + intros Hno. exfalso. eapply Hno. reflexivity.
    + intros a Ha Hne. exfalso. apply Hne.
      rewrite (ownCode_log_levels _ _ _ _ _ Hown Hc). reflexivity.
Qed.

(** An instance: [SetLoggerLevel] on the default logger hands nothing to
    the writers. *)
Lemma calls_frame_witness :
  written (stateAfter (SetLoggerLevel "error") (defaultInstalled sampleEnv emptyState)) =
  written (defaultInstalled sampleEnv emptyState).
Proof.
  apply (proj1 (proj2 (proj2
           (calls_frame sampleEnv (CallSetLoggerLevel "error")
              (defaultInstalled sampleEnv emptyState) _ eq_refl)) eq_refl)).
  intros m msg. discriminate.
Defined.

(** With a client's implementation the picture is different: its
    [SetLoggerLevel] may store into the level of a logger that is not the
    active one.  Here the client's logger holds the level of the default
    logger, which it has replaced. *)
Example client_method_writes_a_level :
  (InitLog sampleEnv "" ;; SetLogger (Some (levelKeeper 1 0)) ;;
   SetLoggerLevel "error") emptyState =
    Returns true
      (installed (levelKeeper 1 0)
         (set_levels [zapcore.ErrorLevel] emptyState)) /\
  runsClientCode (CallSetLoggerLevel "error")
    (installed (levelKeeper 1 0) (set_levels [zapcore.DebugLevel] emptyState)) = true.
Proof. split; reflexivity. Qed.
